(** * ThirdParty audio services: speaker embedder and pyannote diarizer

    Shallow embedding of
    - [services/speaker_embedder/app.py] (module [Embedder]) and
    - [services/pyannote/app.py] (module [Pyannote]),
    with the properties of their normalisation, temp-file and response
    shaping code.

    Python values are modelled as follows: [bytes] as [list byte], [int] as
    [Z], [float] as a binary64 [spec_float] with the IEEE operations of
    [SpecFloat], [str] as [string], a [dict] with string keys as a [gmap],
    the set of paths present on the file system as a [gset string].
    Exceptions are values of [exn] threaded through a [result] monad. *)

From Stdlib Require Import ZArith QArith Qabs Lia List Bool.
From Stdlib Require Import Floats.SpecFloat.
From Stdlib Require Import Strings.Byte.
From stdpp Require Import base tactics option list sorting gmap strings pretty.

Local Open Scope Z_scope.

(** ** Python exceptions and results *)

Module Py.

(** [HTTPException] is FastAPI's; every other exception class that the
    services can meet is an [Exception] carrying its [str()] message. *)
Inductive exn :=
| HTTPException (status_code : Z) (detail : string)
| Exception (msg : string).

Inductive result (A : Type) :=
| Return (a : A)
| Raise (e : exn).
Arguments Return {A} a.
Arguments Raise {A} e.

Definition bind {A B} (r : result A) (k : A -> result B) : result B :=
  match r with
  | Return a => k a
  | Raise e => Raise e
  end.

(** What the client sees: 200 for a returned response, the status of an
    [HTTPException], and the framework's 500 for anything else. *)
Definition http_status {A} (r : result A) : Z :=
  match r with
  | Return _ => 200
  | Raise (HTTPException s _) => s
  | Raise (Exception _) => 500
  end.

(** [str(exc)] *)
Definition str_exn (e : exn) : string :=
  match e with
  | HTTPException _ d => d
  | Exception m => m
  end.

End Py.
Import Py.

(** [x ← c; k] runs [c] and stops at the first raised exception. *)
Global Instance result_bind : MBind result := fun A B k r => Py.bind r k.
Global Instance result_ret : MRet result := @Return.

(** ** Python floats (binary64) *)

Module PyFloat.

Definition prec : Z := 53.
Definition emax : Z := 1024.

Definition mul := SFmul prec emax.
Definition div := SFdiv prec emax.

Definition zero : spec_float := S754_zero false.
(** The literals [1000] and [1000.0]: 1000 * 2^43 * 2^-43. *)
Definition thousand : spec_float := S754_finite false 8796093022208000 (-43).

(** [max(a, b)] on two arguments: [b] when [b > a], otherwise [a]. *)
Definition max (a b : spec_float) : spec_float :=
  if SFltb a b then b else a.

(** Nearest integer to [m * 2^e] ([m > 0]), ties to the even neighbour. *)
Definition round_half_even (m : positive) (e : Z) : Z :=
  match e with
  | Zneg p =>
      let d := 2 ^ Zpos p in
      let q := Zpos m / d in
      let r := Zpos m mod d in
      match 2 * r ?= d with
      | Lt => q
      | Gt => q + 1
      | Eq => if Z.even q then q else q + 1
      end
  | _ => Zpos m * 2 ^ e
  end.

(** [round(x)] with one argument: the nearest [int], ties to even;
    [OverflowError] on an infinity and [ValueError] on a NaN. *)
Definition round (x : spec_float) : result Z :=
  match x with
  | S754_zero _ => Return 0
  | S754_finite s m e =>
      Return (if s then - round_half_even m e else round_half_even m e)
  | S754_infinity _ => Raise (Exception "cannot convert float infinity to integer")
  | S754_nan => Raise (Exception "cannot convert float NaN to integer")
  end.

(** [float(n)] for an [int] [n], as true division [n / 1000.0] applies it:
    correctly rounded, [OverflowError] when out of range. *)
Definition of_int (n : Z) : result spec_float :=
  match binary_normalize prec emax n 0 false with
  | S754_infinity _ => Raise (Exception "int too large to convert to float")
  | f => Return f
  end.

(** The exact rational value of a finite float. *)
Definition to_Q (x : spec_float) : Q :=
  match x with
  | S754_finite s m e =>
      let v := if s then Zneg m else Zpos m in
      match e with
      | Zneg p => Qmake v (2 ^ p)
      | _ => inject_Z (v * 2 ^ e)
      end
  | _ => 0%Q
  end.

Definition is_finite (x : spec_float) : bool :=
  match x with
  | S754_zero _ | S754_finite _ _ _ => true
  | _ => false
  end.

(** [z] is an integer nearest to [v], the even one when there are two. *)
Definition nearest_even (v : Q) (z : Z) : Prop :=
  (Qabs (inject_Z z - v) <= 1 # 2)%Q /\
  ((Qabs (inject_Z z - v) == 1 # 2)%Q -> Z.even z = true).

(** [z] is an integer nearest to [v], the one away from zero when there
    are two. *)
Definition nearest_away (v : Q) (z : Z) : Prop :=
  (Qabs (inject_Z z - v) <= 1 # 2)%Q /\
  ((Qabs (inject_Z z - v) == 1 # 2)%Q -> (Qabs v <= Qabs (inject_Z z))%Q).

End PyFloat.

(** ** Arrays and tensors

    numpy arrays and torch tensors only differ in who owns the buffer, so
    both are one type of nested sequences of floats; [from_numpy],
    [.numpy()], [.cpu()] and [.tolist()] are the identity on it. *)

Module Torch.

#[local] Set Warnings "-register-all".
Inductive tensor :=
| Scalar (x : spec_float)
| Nest (items : list tensor).

(** A 1-D array. *)
Definition vec (xs : list spec_float) : tensor := Nest (map Scalar xs).

(** [t.ndim]; an array without rows counts as 1-D. *)
Fixpoint ndim (t : tensor) : nat :=
  match t with
  | Scalar _ => 0
  | Nest nil => 1
  | Nest (x :: _) => S (ndim x)
  end.

(** [len(t)]: the size of the first dimension. *)
Definition len (t : tensor) : nat :=
  match t with
  | Scalar _ => 0
  | Nest items => length items
  end.

(** [t.unsqueeze(0)] *)
Definition unsqueeze0 (t : tensor) : tensor := Nest [t].

(** [t.squeeze(0)]: drops the first dimension when its size is 1 and
    leaves every other tensor as it is. *)
Definition squeeze0 (t : tensor) : tensor :=
  match t with
  | Nest [t'] => t'
  | _ => t
  end.

(** A flat list of [n] floats, as opposed to a list of lists. *)
Definition flat_of_length (n : nat) (t : tensor) : Prop :=
  exists xs : list spec_float, length xs = n /\ t = vec xs.

End Torch.
Import Torch.

(** ** numpy: raw PCM decoding *)

Module Numpy.

(** One little-endian signed 16-bit sample. *)
Definition int16_le (lo hi : byte) : Z :=
  let u := Z.of_N (Byte.to_N lo) + 256 * Z.of_N (Byte.to_N hi) in
  if u <? 32768 then u else u - 65536.

Fixpoint int16_pairs (raw : list byte) : option (list Z) :=
  match raw with
  | nil => Some nil
  | lo :: hi :: rest => cons (int16_le lo hi) <$> int16_pairs rest
  | _ :: nil => None
  end.

(** [np.frombuffer(raw, dtype=np.int16)], in the byte order of the hosts
    the service runs on: [ValueError] when the size is not a multiple of
    two bytes. *)
Definition frombuffer_int16 (raw : list byte) : result (list Z) :=
  match int16_pairs raw with
  | Some arr => Return arr
  | None => Raise (Exception "buffer size must be a multiple of element size")
  end.

(** binary32 *)
Definition prec32 : Z := 24.
Definition emax32 : Z := 128.

(** [32768.0]: 2^23 * 2^-8. *)
Definition f32768 : spec_float := S754_finite false 8388608 (-8).

(** One element of [arr.astype(np.float32) / 32768.0]. *)
Definition pcm_to_float (k : Z) : spec_float :=
  SFdiv prec32 emax32 (binary_normalize prec32 emax32 k 0 false) f32768.

(** What a decoded sample [f] has to do with its 16-bit code [k]. *)
Definition pcm_sample (k : Z) (f : spec_float) : Prop :=
  -32768 <= k <= 32767 /\
  (PyFloat.to_Q f == k # 32768)%Q /\
  (-1 <= PyFloat.to_Q f)%Q /\ (PyFloat.to_Q f < 1)%Q.

(** [f] on every [n]-bit extension of the bit string [acc]. *)
Fixpoint forall_bits (n : nat) (f : Z -> bool) (acc : Z) : bool :=
  match n with
  | O => f acc
  | S n' => forall_bits n' f (2 * acc) && forall_bits n' f (2 * acc + 1)
  end.

(** The division by 32768 is exact on the sample with unsigned code [u]. *)
Definition pcm_exact (u : Z) : bool :=
  Qeq_bool (PyFloat.to_Q (pcm_to_float (u - 32768))) ((u - 32768) # 32768).

End Numpy.
Import Numpy.

(** ** External capabilities

    The codec, the resampler, the operating system and the pretrained
    models are outside the repository: the services are parameterised over
    them.  Every call that can raise in Python returns a [result]. *)

Class AudioLibs := {
  (** [sf.read(io.BytesIO(raw), dtype="float32")]: samples (1-D for mono,
      frames x channels otherwise) and the native sample rate *)
  sf_read : list byte -> result (tensor * Z);
  (** numpy's float32 mean of one frame, for [wav.mean(axis=1)] *)
  frame_mean : tensor -> spec_float;
  (** [torchaudio.functional.resample(t, orig_freq, new_freq)] *)
  resample : tensor -> Z -> Z -> result tensor;
  (** [tempfile.NamedTemporaryFile(suffix=".wav", delete=False)], given the
      paths that exist: the name of the file it creates *)
  tmp_create : gset string -> result string;
  (** [sf.write(path, data, TARGET_SR)] *)
  sf_write : string -> tensor -> result unit;
  (** whether [os.unlink(path)] raises *)
  unlink_raises : string -> bool
}.

(** A temporary file gets a name that no existing file has. *)
Definition tmp_fresh `{AudioLibs} : Prop :=
  forall (fs : gset string) (p : string),
    tmp_create fs = Return p -> (p ∉ fs) ∧ p ≠ EmptyString.

(** [wav.mean(axis=1)] *)
Definition mean_axis1 `{AudioLibs} (wav : tensor) : tensor :=
  match wav with
  | Scalar _ => wav
  | Nest frames => Nest (map (fun fr => Scalar (frame_mean fr)) frames)
  end.

(** The [finally] clause shared by the handlers:
    [if p and os.path.exists(p): try: os.unlink(p) except Exception: pass] *)
Definition cleanup `{AudioLibs} (p : option string) (fs : gset string) : gset string :=
  match p with
  | None => fs
  | Some path =>
      if decide (path ≠ EmptyString ∧ path ∈ fs)
      then (if unlink_raises path then fs else fs ∖ {[ path ]})
      else fs
  end.

(** The same libraries with another behaviour of [os.unlink]. *)
Definition with_unlink (L : AudioLibs) (u : string -> bool) : AudioLibs := {|
  sf_read := @sf_read L;
  frame_mean := @frame_mean L;
  resample := @resample L;
  tmp_create := @tmp_create L;
  sf_write := @sf_write L;
  unlink_raises := u
|}.

(** [json.dumps(..., allow_nan=False)] as [JSONResponse] renders a body:
    [ValueError] on an infinity or a NaN. *)
Fixpoint json_compliant (t : tensor) : bool :=
  match t with
  | Scalar x => PyFloat.is_finite x
  | Nest items => forallb json_compliant items
  end.

Definition json_error : exn :=
  Exception "Out of range float values are not JSON compliant".

(** [needle in s] on strings *)
Fixpoint contains (needle s : string) : bool :=
  String.prefix needle s ||
  match s with
  | EmptyString => false
  | String _ rest => contains needle rest
  end.

(** * services/speaker_embedder/app.py *)

Module Embedder.

Definition TARGET_SR : Z := 16000.

(** What the raw-PCM path answers to fewer than 1600 samples. *)
Definition too_short : exn :=
  HTTPException 400 "Could not parse audio: Audio too short (need at least ~0.1s)".

Class SpeechBrain := {
  classifier : Type;
  verifier : Type;
  (** [EncoderClassifier.from_hparams(...)] *)
  classifier_from_hparams : result classifier;
  (** [SpeakerRecognition.from_hparams(...)] *)
  verification_from_hparams : result verifier;
  (** [classifier.encode_batch(signal)] *)
  encode_batch : classifier -> tensor -> result tensor;
  (** [verification.verify_files(path1, path2)]: score and prediction *)
  verify_files : verifier -> string -> string -> result (spec_float * bool)
}.

Section Service.
Context `{L : AudioLibs} `{SB : SpeechBrain}.

(** The module globals and the temporary directory. *)
Record world := {
  files : gset string;
  _classifier : option classifier;
  _verification : option verifier
}.

Definition with_files (w : world) (fs : gset string) : world :=
  {| files := fs; _classifier := _classifier w; _verification := _verification w |}.

Definition _load_classifier (w : world) : result classifier * world :=
  match _classifier w with
  | Some c => (Return c, w)
  | None =>
      match classifier_from_hparams with
      | Raise e => (Raise e, w)
      | Return c =>
          (Return c, {| files := files w; _classifier := Some c;
                        _verification := _verification w |})
      end
  end.

Definition _load_verification (w : world) : result verifier * world :=
  match _verification w with
  | Some v => (Return v, w)
  | None =>
      match verification_from_hparams with
      | Raise e => (Raise e, w)
      | Return v =>
          (Return v, {| files := files w; _classifier := _classifier w;
                        _verification := Some v |})
      end
  end.

(** The first [try] block of [_audio_to_tensor]: container decode. *)
Definition decode_container (raw : list byte) : result (tensor * Z) :=
  '(wav, sr) ← sf_read raw;
  let wav := if (ndim wav =? 2)%nat then mean_axis1 wav else wav in
  wav ← (if sr =? TARGET_SR then Return wav
         else t ← resample (unsqueeze0 wav) sr TARGET_SR; Return (squeeze0 t));
  Return (unsqueeze0 wav, TARGET_SR).

(** The second [try] block: raw 16-bit mono PCM. *)
Definition decode_pcm (raw : list byte) (sample_rate_hint : Z) : result (tensor * Z) :=
  arr ← frombuffer_int16 raw;
  let wav := vec (map pcm_to_float arr) in
  if (len wav <? 1600)%nat
  then Raise (Exception "Audio too short (need at least ~0.1s)")
  else
    let t := unsqueeze0 wav in
    t ← (if sample_rate_hint =? TARGET_SR then Return t
         else resample t sample_rate_hint TARGET_SR);
    Return (t, TARGET_SR).

Definition _audio_to_tensor (raw : list byte) (sample_rate_hint : Z) : result (tensor * Z) :=
  match decode_container raw with
  | Return r => Return r
  | Raise _ =>
      match decode_pcm raw sample_rate_hint with
      | Return r => Return r
      | Raise e =>
          Raise (HTTPException 400 ("Could not parse audio: " +:+ str_exn e))
      end
  end.

(** A multipart field: an upload (it has [read]) or a plain string. *)
Inductive form_value :=
| UploadFile (content : list byte)
| FormText (s : string).

Record request := {
  (** [request.headers.get("content-type")] *)
  content_type : option string;
  (** [await request.body()] *)
  body : list byte;
  (** [await request.form()] *)
  form : result (gmap string form_value)
}.

(** Truthiness of [form.get(k)]. *)
Definition truthy (f : option form_value) : bool :=
  match f with
  | None => false
  | Some (FormText s) => negb (String.eqb s "")
  | Some (UploadFile _) => true
  end.

(** The ingress part of [embed]: the audio bytes of the request. *)
Definition embed_raw (req : request) : result (list byte) :=
  let ct := default ""%string (content_type req) in
  if contains "multipart" ct then
    fm ← form req;
    let f := if truthy (fm !! "audio"%string) then fm !! "audio"%string
             else fm !! "file"%string in
    match f with
    | Some (UploadFile content) => Return content
    | _ => Raise (HTTPException 400 "Multipart form must include 'audio' file")
    end
  else Return (body req).

Record embed_response := { embedding : tensor }.

Definition embed (req : request) (w : world) : result embed_response * world :=
  match embed_raw req with
  | Raise e => (Raise e, w)
  | Return raw =>
      if (length raw <? 1600)%nat
      then (Raise (HTTPException 400 "Audio too short (need at least ~0.1s)"), w)
      else
        match _audio_to_tensor raw 16000 with
        | Raise (HTTPException s d) => (Raise (HTTPException s d), w)
        | Raise (Exception m) => (Raise (HTTPException 400 m), w)
        | Return (signal, _) =>
            match _load_classifier w with
            | (Raise e, w1) => (Raise e, w1)
            | (Return cl, w1) =>
                match encode_batch cl signal with
                | Raise e => (Raise e, w1)
                | Return emb =>
                    let out := squeeze0 emb in
                    if json_compliant out
                    then (Return {| embedding := out |}, w1)
                    else (Raise json_error, w1)
                end
            end
        end
  end.

Record verify_response := { same_speaker : bool; score : spec_float }.

(** The [try] block of [verify], with the values of [f1_path] and
    [f2_path] when control leaves it. *)
Definition verify_try (sig1 sig2 : tensor) (w : world)
  : result verify_response * option string * option string * world :=
  match tmp_create (files w) with
  | Raise e => (Raise e, None, None, w)
  | Return f1_path =>
      let w1 := with_files w (files w ∪ {[ f1_path ]}) in
      match sf_write f1_path (squeeze0 sig1) with
      | Raise e => (Raise e, Some f1_path, None, w1)
      | Return _ =>
          match tmp_create (files w1) with
          | Raise e => (Raise e, Some f1_path, None, w1)
          | Return f2_path =>
              let w2 := with_files w1 (files w1 ∪ {[ f2_path ]}) in
              match sf_write f2_path (squeeze0 sig2) with
              | Raise e => (Raise e, Some f1_path, Some f2_path, w2)
              | Return _ =>
                  match _load_verification w2 with
                  | (Raise e, w3) => (Raise e, Some f1_path, Some f2_path, w3)
                  | (Return verification, w3) =>
                      match verify_files verification f1_path f2_path with
                      | Raise e => (Raise e, Some f1_path, Some f2_path, w3)
                      | Return (sc, prediction) =>
                          if PyFloat.is_finite sc
                          then (Return {| same_speaker := prediction; score := sc |},
                                Some f1_path, Some f2_path, w3)
                          else (Raise json_error, Some f1_path, Some f2_path, w3)
                      end
                  end
              end
          end
      end
  end.

Definition verify (raw1 raw2 : list byte) (w : world) : result verify_response * world :=
  match _audio_to_tensor raw1 16000 with
  | Raise e => (Raise e, w)
  | Return (sig1, _) =>
      match _audio_to_tensor raw2 16000 with
      | Raise e => (Raise e, w)
      | Return (sig2, _) =>
          let '(r, f1_path, f2_path, w') := verify_try sig1 sig2 w in
          (r, with_files w' (cleanup f2_path (cleanup f1_path (files w'))))
      end
  end.

End Service.
End Embedder.

(** * services/pyannote/app.py *)

Module Pyannote.

Definition TARGET_SR : Z := 16000.

(** One item of [diarization.itertracks(yield_label=True)]. *)
Record turn := {
  turn_start : spec_float;
  turn_end : spec_float;
  turn_speaker : string
}.

Record segment := {
  speaker : string;
  start_ms : Z;
  end_ms : Z
}.

Record response := {
  duration_sec : spec_float;
  speaker_count : nat;
  segments : list segment
}.

(** ** Token lookup *)

(** [str.isspace] on the code points below 256. *)
Definition is_space (c : Ascii.ascii) : bool :=
  let n := Ascii.nat_of_ascii c in
  ((9 <=? n) && (n <=? 13) || (28 <=? n) && (n <=? 32)
   || (n =? 133) || (n =? 160))%nat.

Fixpoint lstrip (s : list Ascii.ascii) : list Ascii.ascii :=
  match s with
  | c :: rest => if is_space c then lstrip rest else s
  | nil => nil
  end.

(** [s.strip()] *)
Definition strip (s : string) : string :=
  String.string_of_list_ascii
    (rev (lstrip (rev (lstrip (String.list_ascii_of_string s))))).

(** [a or b] where [a] is [None] or a string. *)
Definition or_else (a : option string) (b : string) : string :=
  match a with
  | Some s => if String.eqb s "" then b else s
  | None => b
  end.

(** [os.getenv] reads the process environment. *)
Definition _auth_token (environ : gmap string string) : string :=
  strip
    (or_else (environ !! "PYANNOTE_AUTH_TOKEN"%string)
       (or_else (environ !! "HF_TOKEN"%string)
          (or_else (environ !! "HUGGINGFACE_TOKEN"%string) ""))).

(** ** Response shaping: the loop over the turns *)

(** [int(round(max(0.0, float(t)) * 1000))] *)
Definition to_ms (t : spec_float) : result Z :=
  PyFloat.round (PyFloat.mul (PyFloat.max PyFloat.zero t) PyFloat.thousand).

Record loop_state := {
  speaker_map : gmap string string;
  segs : list segment;
  speaker_index : nat
}.

Definition loop_init : loop_state :=
  {| speaker_map := ∅; segs := nil; speaker_index := 0 |}.

(** [f"S{speaker_index}"] *)
Definition label (i : nat) : string := "S" +:+ pretty i.

Definition loop_body (st : loop_state) (tr : turn) : result loop_state :=
  let sp := turn_speaker tr in
  let '(m, idx) :=
    match speaker_map st !! sp with
    | Some _ => (speaker_map st, speaker_index st)
    | None => (<[ sp := label (speaker_index st) ]> (speaker_map st),
               S (speaker_index st))
    end in
  match m !! sp with
  | None => Raise (Exception "KeyError")
  | Some l =>
      s ← to_ms (turn_start tr);
      e ← to_ms (turn_end tr);
      Return {| speaker_map := m;
                segs := segs st ++ [ {| speaker := l; start_ms := s; end_ms := e |} ];
                speaker_index := idx |}
  end.

Fixpoint loop (st : loop_state) (turns : list turn) : result loop_state :=
  match turns with
  | nil => Return st
  | tr :: rest => st' ← loop_body st tr; loop st' rest
  end.

(** ** [segments.sort(key=lambda seg: (seg["start_ms"], seg["end_ms"]))] *)

Definition sort_key (s : segment) : Z * Z := (start_ms s, end_ms s).

(** Tuple comparison [a <= b]. *)
Definition key_leb (a b : Z * Z) : bool :=
  (a.1 <? b.1) || ((a.1 =? b.1) && (a.2 <=? b.2)).

(** [list.sort] is stable; a stable sort has one possible result, computed
    here by insertion from the right. *)
Fixpoint insert_sorted (x : segment) (l : list segment) : list segment :=
  match l with
  | nil => [x]
  | y :: rest =>
      if key_leb (sort_key x) (sort_key y) then x :: l
      else y :: insert_sorted x rest
  end.

Fixpoint sort (l : list segment) : list segment :=
  match l with
  | nil => nil
  | x :: rest => insert_sorted x (sort rest)
  end.

(** [(segments[-1]["end_ms"] / 1000.0) if segments else 0.0] *)
Definition duration_of (sorted : list segment) : result spec_float :=
  match last sorted with
  | Some sg => f ← PyFloat.of_int (end_ms sg); Return (PyFloat.div f PyFloat.thousand)
  | None => Return PyFloat.zero
  end.

(** Lines 99-124: from the raw turns to the response body. *)
Definition shape (turns : list turn) : result response :=
  st ← loop loop_init turns;
  let segments := sort (segs st) in
  duration ← duration_of segments;
  if PyFloat.is_finite duration
  then Return {| duration_sec := duration;
                 speaker_count := size (speaker_map st);
                 segments := segments |}
  else Raise json_error.

(** ** Vocabulary of the properties *)

(** Tuple order on sort keys. *)
Definition lex_le (a b : Z * Z) : Prop :=
  a.1 < b.1 \/ (a.1 = b.1 /\ a.2 <= b.2).

Definition seg_le (s1 s2 : segment) : Prop := lex_le (sort_key s1) (sort_key s2).

(** The distinct speakers of a run of turns, in the order of their first
    appearance. *)
Definition see (order : list string) (sp : string) : list string :=
  if decide (sp ∈ order) then order else order ++ [sp].

Definition first_seen (speakers : list string) : list string :=
  foldl see [] speakers.

(** "First non-empty wins": the first value that is set and not the empty
    string, and the empty string when there is none. *)
Fixpoint first_nonempty (vals : list (option string)) : string :=
  match vals with
  | nil => EmptyString
  | Some s :: rest => if decide (s = EmptyString) then first_nonempty rest else s
  | None :: rest => first_nonempty rest
  end.

(** The position of a speaker in an order, and the label that goes with
    it. *)
Fixpoint index_of (sp : string) (order : list string) : option nat :=
  match order with
  | nil => None
  | x :: rest => if decide (x = sp) then Some 0%nat else S <$> index_of sp rest
  end.

Definition label_of (order : list string) (sp : string) : string :=
  match index_of sp order with
  | Some i => label i
  | None => EmptyString
  end.

(** The loop invariant: [order] lists the speakers met so far, and the
    map sends the speaker at position [i] to ["S<i>"]. *)
Definition labelled (order : list string) (st : loop_state) : Prop :=
  speaker_index st = length order /\
  NoDup order /\
  size (speaker_map st) = length order /\
  forall sp l, speaker_map st !! sp = Some l <->
               exists i, order !! i = Some sp /\ l = label i.

(** A turn and the segment emitted for it, given the final speaker order. *)
Definition emitted_for (order : list string) (tr : turn) (sg : segment) : Prop :=
  to_ms (turn_start tr) = Return (start_ms sg) /\
  to_ms (turn_end tr) = Return (end_ms sg) /\
  exists i, order !! i = Some (turn_speaker tr) /\ speaker sg = label i.

(** What a turn boundary [t] (seconds) has to do with an emitted [ms]. *)
Definition ms_of (t : spec_float) (ms : Z) : Prop :=
  to_ms t = Return ms /\
  0 <= ms /\
  PyFloat.nearest_even
    (PyFloat.to_Q (PyFloat.mul (PyFloat.max PyFloat.zero t) PyFloat.thousand)) ms.

(** ** The handler *)

Class PyannoteAudio := {
  pipeline : Type;
  (** [Pipeline.from_pretrained(name, use_auth_token=token)]; pyannote
      returns [None] when it cannot fetch the model *)
  from_pretrained : string -> result (option pipeline);
  (** [torch.cuda.is_available()] *)
  cuda_is_available : bool;
  (** [_pipeline.to(torch.device("cuda"))] *)
  to_cuda : pipeline -> result unit;
  (** [pipeline(wav_path)] followed by [itertracks(yield_label=True)] *)
  run : pipeline -> string -> result (list turn)
}.

Section Service.
Context `{L : AudioLibs} `{PA : PyannoteAudio}.

Record world := {
  files : gset string;
  environ : gmap string string;
  _pipeline : option pipeline
}.

Definition with_files (w : world) (fs : gset string) : world :=
  {| files := fs; environ := environ w; _pipeline := _pipeline w |}.

Definition missing_token : string :=
  "Missing Hugging Face token. Set PYANNOTE_AUTH_TOKEN (or HF_TOKEN).".

(** Returns the value of the global, which is [None] when [from_pretrained]
    returned [None]. *)
Definition _load_pipeline (w : world) : result (option pipeline) * world :=
  match _pipeline w with
  | Some p => (Return (Some p), w)
  | None =>
      let token := _auth_token (environ w) in
      if String.eqb token "" then (Raise (Exception missing_token), w)
      else
        match from_pretrained token with
        | Raise e => (Raise e, w)
        | Return p =>
            let w' := {| files := files w; environ := environ w; _pipeline := p |} in
            if cuda_is_available then
              match p with
              | None => (Raise (Exception "'NoneType' object has no attribute 'to'"), w')
              | Some pl =>
                  match to_cuda pl with
                  | Raise e => (Raise e, w')
                  | Return _ => (Return p, w')
                  end
              end
            else (Return p, w')
        end
  end.

Definition _normalize_audio (raw : list byte) (w : world) : result string * world :=
  match sf_read raw with
  | Raise exc =>
      (Raise (HTTPException 400 ("Could not parse audio bytes: " +:+ str_exn exc)), w)
  | Return (wav, sr) =>
      let wav := if (ndim wav =? 2)%nat then mean_axis1 wav else wav in
      let tensor := unsqueeze0 wav in
      match (if sr =? TARGET_SR then Return tensor
             else resample tensor sr TARGET_SR) with
      | Raise e => (Raise e, w)
      | Return tensor =>
          match tmp_create (files w) with
          | Raise e => (Raise e, w)
          | Return output =>
              let w1 := with_files w (files w ∪ {[ output ]}) in
              match sf_write output (squeeze0 tensor) with
              | Raise e => (Raise e, w1)
              | Return _ => (Return output, w1)
              end
          end
      end
  end.

(** Normalisation fails, if it does, before its temporary file exists. *)
Definition normalize_leaves_no_file (raw : list byte) (w : world) : Prop :=
  forall e w1, _normalize_audio raw w = (Raise e, w1) -> files w1 = files w.

(** The [try] block of [diarize], with the value of [wav_path] when
    control leaves it. *)
Definition diarize_try (raw : list byte) (w : world)
  : result response * option string * world :=
  match _normalize_audio raw w with
  | (Raise e, w1) => (Raise e, None, w1)
  | (Return wav_path, w1) =>
      match _load_pipeline w1 with
      | (Raise e, w2) => (Raise e, Some wav_path, w2)
      | (Return None, w2) =>
          (Raise (Exception "'NoneType' object is not callable"), Some wav_path, w2)
      | (Return (Some pl), w2) =>
          match run pl wav_path with
          | Raise e => (Raise e, Some wav_path, w2)
          | Return diarization => (shape diarization, Some wav_path, w2)
          end
      end
  end.

(** [except HTTPException: raise] and
    [except Exception as exc: raise HTTPException(500, str(exc))] *)
Definition to_http {A} (r : result A) : result A :=
  match r with
  | Raise (Exception m) => Raise (HTTPException 500 m)
  | _ => r
  end.

Definition diarize (raw : list byte) (w : world) : result response * world :=
  if (length raw <? 1600)%nat
  then (Raise (HTTPException 400 "Audio too short."), w)
  else
    let '(r, wav_path, w') := diarize_try raw w in
    (to_http r, with_files w' (cleanup wav_path (files w'))).

End Service.
End Pyannote.

(** * Stand-ins for the external capabilities

    Small executable doubles of the codec, the resampler, the operating
    system and the models, on which the services can be run. *)

Module Doubles.

Global Instance byte_eq_dec : EqDecision byte := Byte.byte_eq_dec.

Definition ascii_bytes (s : string) : list byte := String.list_byte_of_string s.

(** Unsigned little-endian integer. *)
Definition le_uint (bs : list byte) : Z :=
  foldr (fun b acc => Z.of_N (Byte.to_N b) + 256 * acc) 0 bs.

Definition le_bytes (width : nat) (n : Z) : list byte :=
  map (fun i => default x00 (Byte.of_N (Z.to_N ((n / 256 ^ Z.of_nat i) mod 256))))
      (seq 0 width).

Definition field (off width : nat) (raw : list byte) : list byte :=
  take width (drop off raw).

(** A decoder for canonical mono 16-bit PCM WAV files (44-byte header);
    everything else is not recognised. *)
Definition wav_read (raw : list byte) : result (tensor * Z) :=
  if decide (field 0 4 raw = ascii_bytes "RIFF"
             ∧ field 8 8 raw = ascii_bytes "WAVEfmt "
             ∧ le_uint (field 20 2 raw) = 1
             ∧ le_uint (field 22 2 raw) = 1
             ∧ le_uint (field 34 2 raw) = 16
             ∧ field 36 4 raw = ascii_bytes "data")
  then
    match int16_pairs (drop 44 raw) with
    | Some arr => Return (vec (map pcm_to_float arr), le_uint (field 24 4 raw))
    | None => Raise (Exception "Error opening file: truncated frame")
    end
  else Raise (Exception "Error opening file: Format not recognised.").

(** A mono 16-bit WAV file holding [samples] at [rate] Hz. *)
Definition wav_file (rate : Z) (samples : list Z) : list byte :=
  let data := flat_map (fun k => le_bytes 2 (k mod 65536)) samples in
  ascii_bytes "RIFF" ++ le_bytes 4 (36 + Z.of_nat (length data))
  ++ ascii_bytes "WAVEfmt " ++ le_bytes 4 16 ++ le_bytes 2 1 ++ le_bytes 2 1
  ++ le_bytes 4 rate ++ le_bytes 4 (2 * rate) ++ le_bytes 2 2 ++ le_bytes 2 16
  ++ ascii_bytes "data" ++ le_bytes 4 (Z.of_nat (length data)) ++ data.

(** Sample-and-hold resampling of a (1, n) tensor to
    [ceil(n * new_freq / orig_freq)] samples. *)
Definition hold_resample (t : tensor) (orig_freq new_freq : Z) : result tensor :=
  if (orig_freq <=? 0) || (new_freq <=? 0)
  then Raise (Exception "Original frequency and desired frequecy should be positive")
  else
    match t with
    | Nest [Nest xs] =>
        let n := Z.of_nat (length xs) in
        let m := (n * new_freq + orig_freq - 1) / orig_freq in
        Return (Nest [Nest (map (fun i =>
                  default (Scalar PyFloat.zero)
                          (xs !! Z.to_nat (Z.of_nat i * orig_freq / new_freq)))
                  (seq 0 (Z.to_nat m)))])
    | _ => Raise (Exception "expected a (1, n) tensor")
    end.

(** The libraries, with switches for the calls that fail. *)
Definition libs (write_fails unlink_fails : bool) : AudioLibs := {|
  sf_read := wav_read;
  frame_mean := fun fr => match fr with
                          | Nest (Scalar x :: _) => x
                          | _ => PyFloat.zero
                          end;
  resample := hold_resample;
  tmp_create := fun fs => Return (fresh ({[ EmptyString ]} ∪ fs));
  sf_write := fun _ _ => if write_fails then Raise (Exception "Error opening file: System error.")
                         else Return tt;
  unlink_raises := fun _ => unlink_fails
|}.

(** An encoder answering every batch of one utterance with a zero
    embedding of SpeechBrain's shape [batch, 1, 192]. *)
Definition zero_embedding : list spec_float := repeat PyFloat.zero 192.

Definition speechbrain : Embedder.SpeechBrain := {|
  Embedder.classifier := unit;
  Embedder.verifier := unit;
  Embedder.classifier_from_hparams := Return tt;
  Embedder.verification_from_hparams := Return tt;
  Embedder.encode_batch := fun _ _ => Return (Nest [Nest [vec zero_embedding]]);
  Embedder.verify_files := fun _ _ _ => Return (S754_finite false 4503599627370496 (-53), true)
|}.

(** A pipeline answering with the turns it was built from. *)
Definition pyannote (turns : list Pyannote.turn) : Pyannote.PyannoteAudio := {|
  Pyannote.pipeline := unit;
  Pyannote.from_pretrained := fun _ => Return (Some tt);
  Pyannote.cuda_is_available := false;
  Pyannote.to_cuda := fun _ => Return tt;
  Pyannote.run := fun _ _ => Return turns
|}.

(** ** Inputs *)

(** Four samples of silence in a WAV file: 52 bytes. *)
Definition short_wav : list byte := wav_file 16000 (repeat 0 4).

(** 0.05 s of silence in a WAV file: 1644 bytes, 800 samples. *)
Definition wav_800 : list byte := wav_file 16000 (repeat 0 800).

(** 0.2 s of silence in a WAV file. *)
Definition wav_3200 : list byte := wav_file 16000 (repeat 0 3200).

(** [n] samples of silence as bare PCM. *)
Definition pcm_zeros (n : nat) : list byte := repeat x00 (2 * n).

Definition embedder_world0 `{SB : Embedder.SpeechBrain} : Embedder.world :=
  {| Embedder.files := ∅; Embedder._classifier := None; Embedder._verification := None |}.

Definition pyannote_world0 `{PA : Pyannote.PyannoteAudio} (env : gmap string string)
  : Pyannote.world :=
  {| Pyannote.files := ∅; Pyannote.environ := env; Pyannote._pipeline := None |}.

(** A whole number of seconds as a binary64 value. *)
Definition seconds (s : Z) : spec_float := binary_normalize 53 1024 s 0 false.

(** Two turns that the iterator yields latest first. *)
Definition late_first : list Pyannote.turn :=
  [ {| Pyannote.turn_start := seconds 5; Pyannote.turn_end := seconds 6;
       Pyannote.turn_speaker := "SPEAKER_01" |};
    {| Pyannote.turn_start := seconds 0; Pyannote.turn_end := seconds 1;
       Pyannote.turn_speaker := "SPEAKER_00" |} ].

(** An environment with one of the three token variables set. *)
Definition token_env : gmap string string := {[ "HF_TOKEN"%string := "hf_token"%string ]}.

(** The first variable set but empty, the two others set. *)
Definition second_variable_env : gmap string string :=
  {[ "PYANNOTE_AUTH_TOKEN"%string := EmptyString;
     "HF_TOKEN"%string := "hf_token"%string;
     "HUGGINGFACE_TOKEN"%string := "other"%string ]}.

(** The run used to exercise /diarize: 0.2 s of silence, a pipeline that
    yields [turns], nothing failing. *)
Definition diarize_run (turns : list Pyannote.turn) (env : gmap string string)
  : result Pyannote.response * Pyannote.world :=
  @Pyannote.diarize (libs false false) (pyannote turns) wav_3200 (pyannote_world0 env).

Definition late_first_response : Pyannote.response :=
  {| Pyannote.duration_sec := S754_finite false 6755399441055744 (-50);
     Pyannote.speaker_count := 2;
     Pyannote.segments :=
       [ {| Pyannote.speaker := "S1"; Pyannote.start_ms := 0; Pyannote.end_ms := 1000 |};
         {| Pyannote.speaker := "S0"; Pyannote.start_ms := 5000; Pyannote.end_ms := 6000 |} ] |}.

(** 0.0625 s, whose product with 1000 is exactly 62.5. *)
Definition sixteenth : spec_float := S754_finite false 4503599627370496 (-56).

(** A raw octet-stream request. *)
Definition octet_stream (raw : list byte) : Embedder.request :=
  {| Embedder.content_type := Some "application/octet-stream"%string;
     Embedder.body := raw;
     Embedder.form := Raise (Exception "not a form") |}.

End Doubles.

(** * Vocabulary of the further properties *)

Module Conditions.

(** A call that raises, if it raises, an exception that is not FastAPI's
    [HTTPException]: what every library does. *)
Definition plain {A} (r : result A) : Prop :=
  forall s d, r <> Raise (HTTPException s d).

Definition libs_plain `{AudioLibs} : Prop :=
  (forall t a b, plain (resample t a b)) /\
  (forall fs, plain (tmp_create fs)) /\
  (forall p t, plain (sf_write p t)).

Definition pyannote_plain `{Pyannote.PyannoteAudio} : Prop :=
  (forall token, plain (Pyannote.from_pretrained token)) /\
  (forall pl, plain (Pyannote.to_cuda pl)) /\
  (forall pl p, plain (Pyannote.run pl p)).

(** A string of whitespace only (the empty string is one). *)
Definition all_space (s : string) : Prop :=
  Forall (fun c => Pyannote.is_space c = true) (String.list_ascii_of_string s).

(** A variable that [os.getenv(...) or ...] passes over. *)
Definition unset_or_empty (o : option string) : Prop :=
  o = None \/ o = Some EmptyString.

(** [s] is the value of the first of the three variables, in the order
    PYANNOTE_AUTH_TOKEN, HF_TOKEN, HUGGINGFACE_TOKEN, that is set to a
    non-empty string. *)
Definition first_set (env : gmap string string) (s : string) : Prop :=
  s <> EmptyString /\
  (env !! "PYANNOTE_AUTH_TOKEN"%string = Some s \/
   (unset_or_empty (env !! "PYANNOTE_AUTH_TOKEN"%string) /\
    env !! "HF_TOKEN"%string = Some s) \/
   (unset_or_empty (env !! "PYANNOTE_AUTH_TOKEN"%string) /\
    unset_or_empty (env !! "HF_TOKEN"%string) /\
    env !! "HUGGINGFACE_TOKEN"%string = Some s)).

(** A string that neither starts nor ends with whitespace. *)
Definition trimmed (s : string) : Prop :=
  let l := String.list_ascii_of_string s in
  (forall c, head l = Some c -> Pyannote.is_space c = false) /\
  (forall c, last l = Some c -> Pyannote.is_space c = false).

(** [+inf] *)
Definition infinity : spec_float := S754_infinity false.

(** A float that is [+0.0] or positive and finite. *)
Definition nonneg_finite (x : spec_float) : Prop :=
  x = S754_zero false \/ exists m e, x = S754_finite false m e.

End Conditions.
Import Conditions.

(** * More stand-ins *)

Module MoreDoubles.
Import Doubles.

(** A codec that decodes every input to three stereo frames at 16 kHz. *)
Definition stereo_frames : list tensor :=
  [ Nest [Scalar PyFloat.zero; Scalar PyFloat.zero];
    Nest [Scalar PyFloat.zero; Scalar PyFloat.zero];
    Nest [Scalar PyFloat.zero; Scalar PyFloat.zero] ].

Definition stereo_libs : AudioLibs := {|
  sf_read := fun _ => Return (Nest stereo_frames, 16000);
  frame_mean := @frame_mean (libs false false);
  resample := hold_resample;
  tmp_create := @tmp_create (libs false false);
  sf_write := fun _ _ => Return tt;
  unlink_raises := fun _ => false
|}.

(** A pipeline that loads, and whose move to the GPU fails. *)
Definition pyannote_cuda_fails : Pyannote.PyannoteAudio := {|
  Pyannote.pipeline := unit;
  Pyannote.from_pretrained := fun _ => Return (Some tt);
  Pyannote.cuda_is_available := true;
  Pyannote.to_cuda := fun _ => Raise (Exception "CUDA error: out of memory");
  Pyannote.run := fun _ _ => Return nil
|}.

(** A multipart request with one upload in the field [name]. *)
Definition multipart_upload (name : string) (raw : list byte) : Embedder.request :=
  {| Embedder.content_type := Some "multipart/form-data; boundary=x"%string;
     Embedder.body := nil;
     Embedder.form := Return {[ name := Embedder.UploadFile raw ]} |}.

(** A multipart request whose [audio] field is text and whose [file]
    field is an upload. *)
Definition multipart_text_audio (raw : list byte) : Embedder.request :=
  {| Embedder.content_type := Some "multipart/form-data; boundary=x"%string;
     Embedder.body := nil;
     Embedder.form := Return {[ "audio"%string := Embedder.FormText "clip.wav";
                                "file"%string := Embedder.UploadFile raw ]} |}.

(** A turn that never ends. *)
Definition endless : list Pyannote.turn :=
  [ {| Pyannote.turn_start := seconds 1; Pyannote.turn_end := infinity;
       Pyannote.turn_speaker := "SPEAKER_00" |} ].

(** Two speakers, three turns, two of them rounding to the same key. *)
Definition three_turns : list Pyannote.turn :=
  [ {| Pyannote.turn_start := seconds 2; Pyannote.turn_end := seconds 3;
       Pyannote.turn_speaker := "SPEAKER_01" |};
    {| Pyannote.turn_start := seconds 0; Pyannote.turn_end := seconds 1;
       Pyannote.turn_speaker := "SPEAKER_00" |};
    {| Pyannote.turn_start := seconds 2; Pyannote.turn_end := seconds 3;
       Pyannote.turn_speaker := "SPEAKER_00" |} ].

(** A turn that starts at NaN and ends at -1 s. *)
Definition strange : list Pyannote.turn :=
  [ {| Pyannote.turn_start := S754_nan;
       Pyannote.turn_end := SFopp (seconds 1);
       Pyannote.turn_speaker := "SPEAKER_00" |} ].

Definition strange_response : Pyannote.response :=
  {| Pyannote.duration_sec := PyFloat.zero;
     Pyannote.speaker_count := 1;
     Pyannote.segments :=
       [ {| Pyannote.speaker := "S0"; Pyannote.start_ms := 0; Pyannote.end_ms := 0 |} ] |}.

Definition three_turns_response : Pyannote.response :=
  {| Pyannote.duration_sec := S754_finite false 6755399441055744 (-51);
     Pyannote.speaker_count := 2;
     Pyannote.segments :=
       [ {| Pyannote.speaker := "S1"; Pyannote.start_ms := 0; Pyannote.end_ms := 1000 |};
         {| Pyannote.speaker := "S0"; Pyannote.start_ms := 2000; Pyannote.end_ms := 3000 |};
         {| Pyannote.speaker := "S1"; Pyannote.start_ms := 2000; Pyannote.end_ms := 3000 |} ] |}.

End MoreDoubles.

(** * Properties *)

Lemma bind_Return {A B} (c : result A) (k : A -> result B) (b : B) :
  c ≫= k = Return b -> exists a, c = Return a /\ k a = Return b.
Proof. destruct c as [a|e]; cbn; [eauto | discriminate]. Qed.

Lemma bind_Return_l {A B} (a : A) (k : A -> result B) : Return a ≫= k = k a.
Proof. reflexivity. Qed.

Lemma bind_Raise {A B} (c : result A) (k : A -> result B) (e : exn) :
  c = Raise e -> c ≫= k = Raise e.
Proof. by intros ->. Qed.

(** ** Rounding *)

Module PyFloatFacts.
Import PyFloat.

Lemma Qabs_diff_le_half (z a : Z) (D : positive) :
  (Qabs (inject_Z z - (a # D)) <= 1 # 2)%Q <-> 2 * Z.abs (z * Zpos D - a) <= Zpos D.
Proof.
  unfold Qle, Qabs, Qminus, Qplus, Qopp, inject_Z; cbn [Qnum Qden].
  rewrite Pos.mul_1_l. lia.
Qed.

Lemma Qabs_diff_eq_half (z a : Z) (D : positive) :
  (Qabs (inject_Z z - (a # D)) == 1 # 2)%Q <-> 2 * Z.abs (z * Zpos D - a) = Zpos D.
Proof.
  unfold Qeq, Qabs, Qminus, Qplus, Qopp, inject_Z; cbn [Qnum Qden].
  rewrite Pos.mul_1_l. lia.
Qed.

Lemma round_half_even_nonneg m e : 0 <= round_half_even m e.
Proof.
  unfold round_half_even. destruct e as [|p|p].
  - lia.
  - pose proof (Z.pow_pos_nonneg 2 (Zpos p)). lia.
  - assert (0 < 2 ^ Zpos p) by (apply Z.pow_pos_nonneg; lia).
    assert (0 <= Zpos m / 2 ^ Zpos p) by (apply Z.div_pos; lia).
    destruct (2 * (Zpos m mod 2 ^ Z.pos p) ?= 2 ^ Z.pos p); try lia.
    destruct (Z.even _); lia.
Qed.

Lemma round_half_even_nearest m e :
  nearest_even (to_Q (S754_finite false m e)) (round_half_even m e).
Proof.
  unfold nearest_even, to_Q, round_half_even. destruct e as [|p|p].
  - replace (inject_Z (Zpos m * 2 ^ 0) - inject_Z (Zpos m * 2 ^ 0))%Q
      with (inject_Z (Zpos m * 2 ^ 0) - ((Zpos m * 2 ^ 0) # 1))%Q by reflexivity.
    rewrite Qabs_diff_le_half, Qabs_diff_eq_half. split; lia.
  - replace (inject_Z (Zpos m * 2 ^ Zpos p))
      with ((Zpos m * 2 ^ Zpos p) # 1)%Q at 2 4 by reflexivity.
    rewrite Qabs_diff_le_half, Qabs_diff_eq_half. split; lia.
  - rewrite Qabs_diff_le_half, Qabs_diff_eq_half, Pos2Z.inj_pow.
    set (D := 2 ^ Zpos p).
    assert (HD : 0 < D) by (apply Z.pow_pos_nonneg; lia).
    pose proof (Z.div_mod (Zpos m) D ltac:(lia)) as Hdm.
    pose proof (Z.mod_pos_bound (Zpos m) D HD) as Hr.
    set (q := Zpos m / D) in *. set (r := Zpos m mod D) in *.
    destruct (Z.compare_spec (2 * r) D) as [Heq|Hlt|Hgt].
    + destruct (Z.even q) eqn:Hev.
      * split; [nia | auto].
      * split; [nia |]. intros _. rewrite Z.even_add, Hev. reflexivity.
    + split; nia.
    + split; nia.
Qed.

(** Rounding to the format keeps the sign it is given. *)
Lemma binary_round_aux_sign p em sx mx ex lx s m e :
  binary_round_aux p em sx mx ex lx = S754_finite s m e -> s = sx.
Proof.
  unfold binary_round_aux.
  destruct (shr_fexp p em mx ex lx) as [mrs' e'].
  destruct (shr_fexp p em _ e' loc_Exact) as [mrs'' e''].
  destruct (shr_m mrs''); try discriminate.
  destruct (e'' <=? em - p); [| discriminate].
  intros [= -> _ _]. reflexivity.
Qed.

(** [max(0.0, t)] is [0.0], a positive finite number or [+inf]. *)
Lemma max_zero_cases t :
  max zero t = zero \/
  (exists m e, max zero t = S754_finite false m e) \/
  max zero t = S754_infinity false.
Proof.
  unfold max, zero.
  destruct t as [s|s| |s m e]; try destruct s; cbn; eauto.
Qed.

Lemma clamped_product_sign t s m e :
  mul (max zero t) thousand = S754_finite s m e -> s = false.
Proof.
  destruct (max_zero_cases t) as [-> | [(m' & e' & ->) | ->]]; cbn.
  - discriminate.
  - unfold mul, SFmul, thousand. cbn [xorb]. apply binary_round_aux_sign.
  - discriminate.
Qed.

Lemma nearest_even_zero : nearest_even 0 0.
Proof. split; [discriminate | reflexivity]. Qed.

(** The constants are binary64 numbers with the values they stand for. *)
Lemma thousand_value :
  valid_binary prec emax thousand = true /\ (to_Q thousand == 1000)%Q.
Proof. split; vm_compute; reflexivity. Qed.

End PyFloatFacts.

(** ** Response shaping of the diarizer *)

Module ShapeFacts.
Import Pyannote PyFloat PyFloatFacts.

Lemma to_ms_spec t ms : to_ms t = Return ms -> ms_of t ms.
Proof.
  intros Hms. split; [exact Hms |]. revert Hms. unfold to_ms.
  destruct (mul (max zero t) thousand) as [s|s| |s m e] eqn:Hx; cbn;
    try discriminate.
  - intros [= <-]. split; [lia | apply nearest_even_zero].
  - apply clamped_product_sign in Hx as ->. intros [= <-].
    split; [apply round_half_even_nonneg | apply round_half_even_nearest].
Qed.

(** *** The speaker map *)

Lemma see_prefix order sp i x :
  order !! i = Some x -> see order sp !! i = Some x.
Proof.
  unfold see. case_decide; [done |]. intros. by apply lookup_app_l_Some.
Qed.

Lemma first_seen_from_prefix sps order i x :
  order !! i = Some x -> foldl see order sps !! i = Some x.
Proof.
  revert order. induction sps as [|sp sps IH]; intros order Hi; cbn; [done |].
  apply IH. by apply see_prefix.
Qed.

Lemma see_elem order sp x : x ∈ see order sp <-> x ∈ order \/ x = sp.
Proof.
  unfold see. case_decide as Hin.
  - split; [auto | intros [Hx | ->]; done].
  - rewrite elem_of_app, list_elem_of_singleton. done.
Qed.

Lemma first_seen_from_elem sps order x :
  x ∈ foldl see order sps <-> x ∈ order \/ x ∈ sps.
Proof.
  revert order. induction sps as [|sp sps IH]; intros order; cbn.
  - rewrite elem_of_nil. tauto.
  - rewrite IH, see_elem, elem_of_cons. tauto.
Qed.

Lemma labelled_init : labelled [] loop_init.
Proof.
  unfold labelled, loop_init; cbn [speaker_map speaker_index segs].
  repeat split; try done.
  - constructor.
  - intros (i & Hi & _). by rewrite lookup_nil in Hi.
Qed.

Lemma loop_body_spec st tr st' order :
  loop_body st tr = Return st' ->
  labelled order st ->
  labelled (see order (turn_speaker tr)) st' /\
  exists sg, segs st' = segs st ++ [sg] /\
             emitted_for (see order (turn_speaker tr)) tr sg.
Proof.
  unfold loop_body, emitted_for. intros Hbody (Hidx & Hnd & Hsz & Hmap).
  set (sp := turn_speaker tr) in *.
  destruct (speaker_map st !! sp) as [l|] eqn:Hsp.
  - (* a speaker met before *)
    rewrite Hsp in Hbody.
    apply bind_Return in Hbody as (s & Hs & Hbody).
    apply bind_Return in Hbody as (e & He & Hbody).
    injection Hbody as <-. cbn.
    apply Hmap in Hsp as Hl. destruct Hl as (i & Hi & ->).
    assert (Hsee : see order sp = order).
    { unfold see. rewrite decide_True; [done |]. by eapply list_elem_of_lookup_2. }
    rewrite Hsee. split; [unfold labelled; cbn; tauto |].
    eexists; split; [done |]. cbn. eauto.
  - (* a new speaker *)
    rewrite lookup_insert_eq in Hbody.
    apply bind_Return in Hbody as (s & Hs & Hbody).
    apply bind_Return in Hbody as (e & He & Hbody).
    injection Hbody as <-. cbn.
    assert (Hnew : sp ∉ order).
    { intros (i & Hi)%list_elem_of_lookup_1.
      assert (speaker_map st !! sp = Some (label i)) as Hc by (apply Hmap; eauto).
      congruence. }
    assert (Hsee : see order sp = order ++ [sp]) by (unfold see; by rewrite decide_False).
    rewrite Hsee. split.
    + repeat split; cbn.
      * rewrite length_app; cbn. lia.
      * apply NoDup_app. repeat split; [done | | apply NoDup_singleton].
        intros x Hx ->%list_elem_of_singleton. done.
      * rewrite map_size_insert_None by done. rewrite length_app; cbn. lia.
      * intros Hl. destruct (decide (sp0 = sp)) as [-> | Hne].
        -- rewrite lookup_insert_eq in Hl. injection Hl as <-.
           exists (length order). split; [| by rewrite Hidx].
           rewrite lookup_app_r by lia. by rewrite Nat.sub_diag.
        -- rewrite lookup_insert_ne in Hl by done.
           apply Hmap in Hl as (i & Hi & ->). exists i. split; [| done].
           by apply lookup_app_l_Some.
      * intros (i & Hi & ->). destruct (decide (sp0 = sp)) as [-> | Hne].
        -- rewrite lookup_insert_eq. f_equal. f_equal.
           apply lookup_app_Some in Hi as [Hi | [Hlen Hi]].
           ++ exfalso. apply Hnew. by eapply list_elem_of_lookup_2.
           ++ apply list_lookup_singleton_Some in Hi as [Hi _]. lia.
        -- rewrite lookup_insert_ne by done. apply Hmap. exists i. split; [| done].
           apply lookup_app_Some in Hi as [Hi | [Hlen Hi]]; [done |].
           apply list_lookup_singleton_Some in Hi as [_ Hi]. congruence.
    + eexists; split; [done |]. cbn. split; [done |]. split; [done |].
      exists (length order). split; [| by rewrite Hidx].
      rewrite lookup_app_r by lia. by rewrite Nat.sub_diag.
Qed.

Lemma emitted_for_mono order sp tr sg :
  emitted_for order tr sg -> emitted_for (see order sp) tr sg.
Proof.
  intros (Hs & He & i & Hi & Hl). repeat split; [done | done |].
  exists i. split; [by apply see_prefix | done].
Qed.

Lemma loop_spec turns st st' order :
  loop st turns = Return st' ->
  labelled order st ->
  let final := foldl see order (map turn_speaker turns) in
  labelled final st' /\
  exists new, segs st' = segs st ++ new /\ Forall2 (emitted_for final) turns new.
Proof.
  revert st order. induction turns as [|tr turns IH]; intros st order; cbn.
  - intros [= <-] Hinv. split; [done |]. exists []. by rewrite app_nil_r.
  - intros (st1 & Hbody & Hloop)%bind_Return Hinv.
    destruct (loop_body_spec _ _ _ _ Hbody Hinv) as (Hinv1 & sg & Hsegs & Hsg).
    destruct (IH _ _ Hloop Hinv1) as (Hinv' & new & Hsegs' & Hnew).
    split; [done |]. exists (sg :: new). split.
    + rewrite Hsegs', Hsegs, <- app_assoc. done.
    + constructor; [| done].
      destruct Hsg as (Hs & He & i & Hi & Hl). repeat split; [done | done |].
      exists i. split; [| done]. by apply first_seen_from_prefix.
Qed.

End ShapeFacts.

(** ** Sorting of the segments *)

Module SortFacts.
Import Pyannote.

Lemma key_leb_spec a b : key_leb a b = true <-> lex_le a b.
Proof.
  unfold key_leb, lex_le.
  rewrite orb_true_iff, andb_true_iff, Z.ltb_lt, Z.eqb_eq, Z.leb_le. tauto.
Qed.

Lemma key_leb_false a b : key_leb a b = false -> lex_le b a.
Proof.
  unfold key_leb, lex_le.
  rewrite orb_false_iff, andb_false_iff, Z.ltb_ge, Z.eqb_neq, Z.leb_gt. lia.
Qed.

Global Instance seg_le_trans : Transitive seg_le.
Proof. unfold seg_le, lex_le. intros a b c. lia. Qed.

Lemma insert_sorted_perm x l : insert_sorted x l ≡ₚ x :: l.
Proof.
  induction l as [|y l IH]; cbn; [done |].
  destruct (key_leb _ _); [done |]. rewrite IH. apply Permutation_swap.
Qed.

Lemma sort_perm l : sort l ≡ₚ l.
Proof.
  induction l as [|x l IH]; cbn; [done |].
  by rewrite insert_sorted_perm, IH.
Qed.

Lemma insert_sorted_hd x y l :
  seg_le y x -> Forall (seg_le y) l -> Forall (seg_le y) (insert_sorted x l).
Proof.
  intros Hyx Hl. rewrite insert_sorted_perm. by constructor.
Qed.

Lemma insert_sorted_sorted x l :
  StronglySorted seg_le l -> StronglySorted seg_le (insert_sorted x l).
Proof.
  induction 1 as [|y l Hl IH Hy]; cbn.
  - repeat constructor.
  - destruct (key_leb (sort_key x) (sort_key y)) eqn:Hxy.
    + apply key_leb_spec in Hxy. constructor; [by constructor |].
      constructor; [done |].
      eapply Forall_impl; [exact Hy |]. intros z Hz. by transitivity y.
    + apply key_leb_false in Hxy. constructor; [done |].
      by apply insert_sorted_hd.
Qed.

Lemma sort_sorted l : StronglySorted seg_le (sort l).
Proof.
  induction l as [|x l IH]; cbn; [constructor | by apply insert_sorted_sorted].
Qed.

(** Stability: segments with equal keys keep their raw order, so the
    result is the one a stable sort gives. *)
Lemma insert_sorted_filter (P : segment -> bool) x l :
  (forall y, y ∈ l -> P y = true -> P x = true -> seg_le x y) ->
  List.filter P (insert_sorted x l) = List.filter P (x :: l).
Proof.
  induction l as [|y l IH]; intros Hle; [done |]. cbn.
  destruct (key_leb (sort_key x) (sort_key y)) eqn:Hxy; [done |]. cbn.
  rewrite IH by (intros z Hz; apply Hle; by right). cbn.
  destruct (P x) eqn:Px, (P y) eqn:Py; try done.
  exfalso. assert (seg_le x y) as Hc by (apply Hle; [left | |]; done).
  apply key_leb_spec in Hc. unfold seg_le in *. congruence.
Qed.

Lemma sort_stable (k : Z * Z) l :
  List.filter (fun s => bool_decide (sort_key s = k)) (sort l)
  = List.filter (fun s => bool_decide (sort_key s = k)) l.
Proof.
  induction l as [|x l IH]; [done |]. cbn [sort].
  rewrite insert_sorted_filter.
  - cbn. by rewrite IH.
  - intros y _ Hy Hx. apply bool_decide_eq_true in Hy, Hx.
    unfold seg_le, lex_le. rewrite Hy, Hx. lia.
Qed.

End SortFacts.

(** ** The diarization response *)

Module DiarizeFacts.
Import Pyannote PyFloat ShapeFacts SortFacts.

Lemma shape_spec turns r :
  shape turns = Return r ->
  exists st, loop loop_init turns = Return st /\
             segments r = sort (segs st) /\
             speaker_count r = size (speaker_map st) /\
             duration_of (segments r) = Return (duration_sec r).
Proof.
  unfold shape. intros (st & Hloop & Hrest)%bind_Return.
  apply bind_Return in Hrest as (d & Hd & Hrest).
  destruct (is_finite d); [| discriminate]. injection Hrest as <-.
  exists st. by cbn.
Qed.

Lemma loop_init_spec turns st :
  loop loop_init turns = Return st ->
  let order := first_seen (turn_speaker <$> turns) in
  labelled order st /\ Forall2 (emitted_for order) turns (segs st).
Proof.
  intros Hloop.
  destruct (loop_spec _ _ _ _ Hloop labelled_init) as (Hinv & new & Hsegs & Hnew).
  cbn in Hsegs. subst new. done.
Qed.

Lemma first_seen_NoDup sps : NoDup (first_seen sps).
Proof.
  unfold first_seen. assert (NoDup (@nil string)) as Hnil by constructor.
  revert Hnil. generalize (@nil string) as order.
  induction sps as [|sp sps IH]; intros order Hnd; cbn; [done |].
  apply IH. unfold see. case_decide as Hin; [done |].
  apply NoDup_app. repeat split; [done | | apply NoDup_singleton].
  intros x Hx ->%list_elem_of_singleton. done.
Qed.

Lemma first_seen_elem sps x : x ∈ first_seen sps <-> x ∈ sps.
Proof.
  unfold first_seen. rewrite first_seen_from_elem, elem_of_nil. tauto.
Qed.

Lemma first_seen_head sp sps : first_seen (sp :: sps) !! 0%nat = Some sp.
Proof.
  unfold first_seen. cbn. apply first_seen_from_prefix.
  unfold see. rewrite decide_False; [done |]. apply not_elem_of_nil.
Qed.

Lemma index_of_lookup order i sp :
  NoDup order -> order !! i = Some sp -> index_of sp order = Some i.
Proof.
  intros Hnd. revert i. induction Hnd as [|x order Hx Hnd IH]; intros i Hi.
  - by rewrite lookup_nil in Hi.
  - cbn. destruct i as [|i]; cbn in Hi.
    + injection Hi as ->. by rewrite decide_True.
    + rewrite decide_False.
      * by rewrite (IH i Hi).
      * intros ->. apply Hx. by eapply list_elem_of_lookup_2.
Qed.

Lemma label_of_lookup order i sp :
  NoDup order -> order !! i = Some sp -> label_of order sp = label i.
Proof. intros Hnd Hi. unfold label_of. by rewrite (index_of_lookup _ _ _ Hnd Hi). Qed.

Global Instance label_inj : Inj (=) (=) label.
Proof.
  intros i j Hij. unfold label in Hij. injection Hij as Hij.
  change (pretty i = pretty j) in Hij. by apply (inj pretty) in Hij.
Qed.

Lemma emitted_labels order turns emitted :
  NoDup order ->
  Forall2 (emitted_for order) turns emitted ->
  speaker <$> emitted = (fun tr => label_of order (turn_speaker tr)) <$> turns.
Proof.
  intros Hnd. induction 1 as [|tr sg turns' segs' Hsg _ IH]; [done |].
  cbn. f_equal; [| exact IH].
  destruct Hsg as (_ & _ & i & Hi & ->). symmetry. by apply label_of_lookup.
Qed.

(** The labels that occur are exactly ["S0"], ..., ["S<n-1>"]. *)
Lemma labels_emitted order turns emitted x :
  NoDup order ->
  (forall sp, sp ∈ order <-> sp ∈ turn_speaker <$> turns) ->
  Forall2 (emitted_for order) turns emitted ->
  x ∈ speaker <$> emitted <-> x ∈ label <$> seq 0 (length order).
Proof.
  intros Hnd Hdom Hall. rewrite !list_elem_of_fmap. split.
  - intros (sg & -> & Hsg).
    apply list_elem_of_lookup_1 in Hsg as (k & Hk).
    destruct (Forall2_lookup_r _ _ _ _ _ Hall Hk) as (tr & _ & _ & _ & i & Hi & Hl).
    exists i. split; [done |]. apply elem_of_seq.
    apply lookup_lt_Some in Hi. lia.
  - intros (i & -> & Hi). apply elem_of_seq in Hi.
    destruct (lookup_lt_is_Some_2 order i ltac:(lia)) as (sp & Hsp).
    assert (sp ∈ turn_speaker <$> turns) as Hin
      by (apply Hdom; by eapply list_elem_of_lookup_2).
    apply list_elem_of_fmap in Hin as (tr & -> & Htr).
    apply list_elem_of_lookup_1 in Htr as (k & Hk).
    destruct (Forall2_lookup_l _ _ _ _ _ Hall Hk) as (sg & Hsg & _ & _ & j & Hj & Hl).
    exists sg. split; [| by eapply list_elem_of_lookup_2].
    rewrite Hl. f_equal. by eapply NoDup_lookup.
Qed.

Lemma distinct_labels order turns emitted :
  NoDup order ->
  (forall sp, sp ∈ order <-> sp ∈ turn_speaker <$> turns) ->
  Forall2 (emitted_for order) turns emitted ->
  length (remove_dups (speaker <$> sort emitted)) = length order.
Proof.
  intros Hnd Hdom Hall.
  transitivity (length (label <$> seq 0 (length order)));
    [| by rewrite length_fmap, length_seq].
  apply Permutation_length, NoDup_Permutation.
  - apply NoDup_remove_dups.
  - apply (NoDup_fmap_2 _), NoDup_seq.
  - intros x. rewrite elem_of_remove_dups, sort_perm.
    by eapply labels_emitted.
Qed.

End DiarizeFacts.

(** ** The /diarize handler *)

Module DiarizeHandler.
Import Pyannote PyFloat ShapeFacts SortFacts DiarizeFacts.

Section Handler.
Context `{L : AudioLibs} `{PA : PyannoteAudio}.

Lemma to_http_Return {A} (r : result A) (a : A) : to_http r = Return a -> r = Return a.
Proof. destruct r as [|[]]; cbn; congruence. Qed.

(** A 200 response is the shaping of the turns that the pipeline yielded. *)
Lemma diarize_Return raw w r w' :
  diarize raw w = (Return r, w') ->
  exists pl wav_path turns, run pl wav_path = Return turns /\ shape turns = Return r.
Proof.
  unfold diarize, diarize_try.
  destruct (length raw <? 1600)%nat; [discriminate |].
  destruct (_normalize_audio raw w) as [[wav_path|e] w1];
    [destruct (_load_pipeline w1) as [[[pl|]|e] w2];
       [destruct (run pl wav_path) as [turns|e] eqn:Hrun | |] |];
    cbn; intros [= Hr _]; try (destruct e; discriminate).
  destruct (shape turns) as [r0|[]] eqn:Hshape; try discriminate.
  injection Hr as ->. eauto.
Qed.

(** The same, with the file and the pipeline of this request: the file
    that normalisation wrote and the pipeline that the loader returned. *)
Lemma diarize_Return_run raw w r w' :
  diarize raw w = (Return r, w') ->
  exists wav_path w1 pl w2 turns,
    _normalize_audio raw w = (Return wav_path, w1) /\
    _load_pipeline w1 = (Return (Some pl), w2) /\
    run pl wav_path = Return turns /\
    shape turns = Return r.
Proof.
  unfold diarize, diarize_try.
  destruct (length raw <? 1600)%nat; [discriminate |].
  destruct (_normalize_audio raw w) as [[wav_path|e] w1] eqn:Hnorm;
    [destruct (_load_pipeline w1) as [[[pl|]|e] w2] eqn:Hload;
       [destruct (run pl wav_path) as [turns|e] eqn:Hrun | |] |];
    cbn; intros [= Hr _]; try (destruct e; discriminate).
  destruct (shape turns) as [r0|[]] eqn:Hshape; try discriminate.
  injection Hr as ->. exists wav_path, w1, pl, w2, turns. done.
Qed.

(** C6: the segments of every /diarize response are sorted ascending by
    (start_ms, end_ms), whatever turns the pipeline yields and in whatever
    order it yields them. *)
Theorem diarize_segments_sorted raw w r w' :
  diarize raw w = (Return r, w') ->
  StronglySorted seg_le (segments r).
Proof.
  intros (pl & p & turns & _ & Hshape)%diarize_Return.
  apply shape_spec in Hshape as (st & _ & -> & _).
  apply sort_sorted.
Qed.

(** C8: [duration_sec] of a /diarize response is the [end_ms] of the last
    segment of the sorted list, converted to a float and divided by 1000.0,
    and 0.0 when there is no segment. *)
Theorem diarize_duration_sec raw w r w' :
  diarize raw w = (Return r, w') ->
  match last (segments r) with
  | Some sg => exists f, PyFloat.of_int (end_ms sg) = Return f /\
                         duration_sec r = PyFloat.div f PyFloat.thousand
  | None => duration_sec r = PyFloat.zero
  end.
Proof.
  intros (pl & p & turns & _ & Hshape)%diarize_Return.
  apply shape_spec in Hshape as (st & _ & _ & _ & Hd).
  unfold duration_of in Hd. destruct (last (segments r)) as [sg|].
  - apply bind_Return in Hd as (f & Hf & Hd). injection Hd as <-. eauto.
  - by injection Hd.
Qed.

(** C7: labels follow the order in which the raw speakers are first met.
    The segments of the response are the sort of the list [emitted] that
    has, turn by turn in raw iteration order, the segment built for that
    turn: its two rounded boundaries and the label ["S<i>"], [i] being the
    position of the turn's speaker in the order of first appearance.  So
    the segment of the first turn carries ["S0"], every turn of one
    speaker carries one label, and [speaker_count] is the number of
    distinct labels in the response. *)
Theorem diarize_labels_first_seen raw w r w' :
  diarize raw w = (Return r, w') ->
  exists pl wav_path turns emitted,
    (exists w1 w2, _normalize_audio raw w = (Return wav_path, w1) /\
                   _load_pipeline w1 = (Return (Some pl), w2)) /\
    run pl wav_path = Return turns /\
    segments r = sort emitted /\
    let order := first_seen (turn_speaker <$> turns) in
    Forall2 (emitted_for order) turns emitted /\
    speaker <$> emitted = (fun tr => label_of order (turn_speaker tr)) <$> turns /\
    (forall i sp, order !! i = Some sp -> label_of order sp = "S" +:+ pretty i) /\
    (forall tr sg, head turns = Some tr -> head emitted = Some sg ->
                   order !! 0%nat = Some (turn_speaker tr) /\
                   speaker sg = "S0"%string) /\
    (forall i j tr1 tr2 sg1 sg2,
       turns !! i = Some tr1 -> turns !! j = Some tr2 ->
       emitted !! i = Some sg1 -> emitted !! j = Some sg2 ->
       turn_speaker tr1 = turn_speaker tr2 -> speaker sg1 = speaker sg2) /\
    (forall sp, sp ∈ order <-> sp ∈ turn_speaker <$> turns) /\
    NoDup order /\
    speaker_count r = length order /\
    speaker_count r = length (remove_dups (speaker <$> segments r)).
Proof.
  intros (p & w1 & pl & w2 & turns & Hnorm & Hload & Hrun & Hshape)%diarize_Return_run.
  apply shape_spec in Hshape as (st & Hloop & Hsegs & Hcount & _).
  apply loop_init_spec in Hloop as [(_ & Hnd & Hsize & _) Hall].
  exists pl, p, turns, (segs st). cbn zeta.
  set (order := first_seen (turn_speaker <$> turns)) in *.
  assert (Hdom : forall sp, sp ∈ order <-> sp ∈ turn_speaker <$> turns)
    by (intros sp; apply first_seen_elem).
  split_and!; try done.
  - eauto.
  - by apply emitted_labels.
  - intros i sp Hi. by apply label_of_lookup.
  - intros tr sg Hhd Hsg.
    destruct turns as [|tr0 turns0]; [done |]. injection Hhd as ->.
    assert (order !! 0%nat = Some (turn_speaker tr)) as H0 by apply first_seen_head.
    split; [done |].
    inversion Hall as [|? sg0 ? segs0 (_ & _ & i & Hi & Hl) _ Heq1 Heq2]; subst.
    rewrite <- Heq2 in Hsg. injection Hsg as <-. rewrite Hl.
    by rewrite (NoDup_lookup _ _ _ _ Hnd Hi H0).
  - intros i j tr1 tr2 sg1 sg2 Ht1 Ht2 Hs1 Hs2 Hsp.
    destruct (Forall2_lookup_lr _ _ _ _ _ _ Hall Ht1 Hs1) as (_ & _ & a & Ha & ->).
    destruct (Forall2_lookup_lr _ _ _ _ _ _ Hall Ht2 Hs2) as (_ & _ & b & Hb & ->).
    rewrite Hsp in Ha. f_equal. by eapply NoDup_lookup.
  - congruence.
  - rewrite Hsegs, Hcount, Hsize. symmetry. by eapply distinct_labels.
Qed.

(** C2, as the code has it: every boundary is emitted as the integer
    nearest to the float product [max(0.0, t) * 1000], the even neighbour
    when the product lies halfway between two integers, and is never
    negative. *)
Theorem diarize_boundaries_round_half_even raw w r w' :
  diarize raw w = (Return r, w') ->
  exists pl wav_path turns emitted,
    run pl wav_path = Return turns /\
    segments r = sort emitted /\
    Forall2 (fun tr sg => ms_of (turn_start tr) (start_ms sg) /\
                          ms_of (turn_end tr) (end_ms sg)) turns emitted.
Proof.
  intros (pl & p & turns & Hrun & Hshape)%diarize_Return.
  apply shape_spec in Hshape as (st & Hloop & Hsegs & _).
  apply loop_init_spec in Hloop as [_ Hall].
  exists pl, p, turns, (segs st). split_and!; try done.
  eapply Forall2_impl; [exact Hall |].
  intros tr sg (Hs & He & _). split; by apply to_ms_spec.
Qed.

End Handler.
End DiarizeHandler.

(** ** The token and the lazily loaded pipeline *)

Module DiarizeConfig.
Import Pyannote.

Lemma or_else_first_nonempty (a : option string) (rest : list (option string)) :
  or_else a (first_nonempty rest) = first_nonempty (a :: rest).
Proof.
  destruct a as [s|]; cbn; [| done].
  destruct (String.eqb_spec s ""); [by rewrite decide_True | by rewrite decide_False].
Qed.

Lemma _auth_token_first_nonempty (env : gmap string string) :
  _auth_token env =
  strip (first_nonempty [env !! "PYANNOTE_AUTH_TOKEN"%string;
                         env !! "HF_TOKEN"%string;
                         env !! "HUGGINGFACE_TOKEN"%string]).
Proof.
  unfold _auth_token. f_equal.
  rewrite <- !or_else_first_nonempty. reflexivity.
Qed.

Section Handler.
Context `{L : AudioLibs} `{PA : PyannoteAudio}.

Lemma _normalize_audio_globals raw w r w1 :
  _normalize_audio raw w = (r, w1) ->
  environ w1 = environ w /\ _pipeline w1 = _pipeline w.
Proof.
  unfold _normalize_audio.
  destruct (sf_read raw) as [[wav sr]|e]; [| by intros [= _ <-]].
  destruct (if sr =? TARGET_SR then _ else _) as [t|e]; [| by intros [= _ <-]].
  destruct (tmp_create (files w)) as [p|e]; [| by intros [= _ <-]].
  destruct (sf_write p (squeeze0 t)); by intros [= _ <-].
Qed.

Lemma lstrip_id l :
  (forall c, head l = Some c -> is_space c = false) -> lstrip l = l.
Proof. destruct l as [|c l]; [done |]. intros Hc. cbn. by rewrite (Hc c). Qed.

Lemma head_rev {A} (l : list A) : head (rev l) = last l.
Proof.
  induction l as [|x l _] using rev_ind; [done |].
  by rewrite rev_app_distr, last_snoc.
Qed.

(** [strip] leaves alone a string without whitespace at its ends. *)
Lemma strip_trimmed s : trimmed s -> strip s = s.
Proof.
  intros [Hhd Hlast]. unfold strip.
  rewrite (lstrip_id _ Hhd), lstrip_id, rev_involutive.
  - apply String.string_of_list_ascii_of_string.
  - intros c. rewrite head_rev. apply Hlast.
Qed.

Lemma first_nonempty_skip o rest :
  unset_or_empty o -> first_nonempty (o :: rest) = first_nonempty rest.
Proof. intros [-> | ->]; cbn [first_nonempty]; [done | by rewrite decide_True]. Qed.

Lemma first_nonempty_hit s rest :
  s <> EmptyString -> first_nonempty (Some s :: rest) = s.
Proof. intros Hne. cbn [first_nonempty]. by rewrite decide_False. Qed.

Lemma first_nonempty_first_set (env : gmap string string) s :
  first_set env s ->
  first_nonempty [env !! "PYANNOTE_AUTH_TOKEN"%string;
                  env !! "HF_TOKEN"%string;
                  env !! "HUGGINGFACE_TOKEN"%string] = s.
Proof.
  intros [Hne [H1 | [[H1 H2] | (H1 & H2 & H3)]]].
  - rewrite H1. by apply first_nonempty_hit.
  - rewrite H2, (first_nonempty_skip _ _ H1). by apply first_nonempty_hit.
  - rewrite H3, (first_nonempty_skip _ _ H1), (first_nonempty_skip _ _ H2).
    by apply first_nonempty_hit.
Qed.

Lemma first_nonempty_none (env : gmap string string) :
  unset_or_empty (env !! "PYANNOTE_AUTH_TOKEN"%string) ->
  unset_or_empty (env !! "HF_TOKEN"%string) ->
  unset_or_empty (env !! "HUGGINGFACE_TOKEN"%string) ->
  first_nonempty [env !! "PYANNOTE_AUTH_TOKEN"%string;
                  env !! "HF_TOKEN"%string;
                  env !! "HUGGINGFACE_TOKEN"%string] = EmptyString.
Proof.
  intros H1 H2 H3.
  by rewrite (first_nonempty_skip _ _ H1), (first_nonempty_skip _ _ H2),
    (first_nonempty_skip _ _ H3).
Qed.

(** C9: for every environment the token is [strip()] of the first
    non-empty value among PYANNOTE_AUTH_TOKEN, HF_TOKEN and
    HUGGINGFACE_TOKEN, in that order: that value itself when it has no
    whitespace at its ends, and the empty string when none of the three
    is set to a non-empty value.  When no token is left and no pipeline is
    loaded yet, a request that passes the length check and normalisation
    is answered with HTTP 500 carrying the configuration error, raised in
    the handler, and the pipeline stays unloaded. *)
Theorem missing_token_is_500_on_first_use :
  (forall env : gmap string string,
     _auth_token env =
       strip (first_nonempty [env !! "PYANNOTE_AUTH_TOKEN"%string;
                              env !! "HF_TOKEN"%string;
                              env !! "HUGGINGFACE_TOKEN"%string])) /\
  (forall (env : gmap string string) s,
     first_set env s ->
     _auth_token env = strip s /\ (trimmed s -> _auth_token env = s)) /\
  (forall env : gmap string string,
     unset_or_empty (env !! "PYANNOTE_AUTH_TOKEN"%string) ->
     unset_or_empty (env !! "HF_TOKEN"%string) ->
     unset_or_empty (env !! "HUGGINGFACE_TOKEN"%string) ->
     _auth_token env = EmptyString) /\
  (forall raw w wav_path w1,
     _pipeline w = None ->
     _auth_token (environ w) = EmptyString ->
     (1600 <= length raw)%nat ->
     _normalize_audio raw w = (Return wav_path, w1) ->
     exists w',
       diarize raw w = (Raise (HTTPException 500 missing_token), w') /\
       http_status (diarize raw w).1 = 500 /\
       _pipeline w' = None).
Proof.
  split_and!.
  - apply _auth_token_first_nonempty.
  - intros env s Hs. rewrite _auth_token_first_nonempty.
    rewrite (first_nonempty_first_set env s Hs).
    split; [done | apply strip_trimmed].
  - intros env H1 H2 H3. rewrite _auth_token_first_nonempty.
    by rewrite (first_nonempty_none env H1 H2 H3).
  - intros raw w wav_path w1 Hnone Htok Hlen Hnorm.
    destruct (_normalize_audio_globals _ _ _ _ Hnorm) as [Henv Hpl].
    unfold diarize, diarize_try.
    destruct (Nat.ltb_spec (length raw) 1600); [lia |].
    rewrite Hnorm. unfold _load_pipeline. rewrite Hpl, Hnone, Henv, Htok. cbn.
    eexists. split; [reflexivity |]. split; [reflexivity |]. cbn. congruence.
Qed.

End Handler.
End DiarizeConfig.

(** ** Raw PCM decoding *)

Module PcmFacts.
Import PyFloat.

Lemma forall_bits_sound n f acc :
  forall_bits n f acc = true ->
  forall u, acc * 2 ^ Z.of_nat n <= u < (acc + 1) * 2 ^ Z.of_nat n -> f u = true.
Proof.
  revert acc. induction n as [|n IH]; intros acc Hall u Hu.
  - cbn in *. by replace u with acc by lia.
  - cbn [forall_bits] in Hall. apply andb_true_iff in Hall as [H0 H1].
    rewrite Nat2Z.inj_succ, Z.pow_succ_r in Hu by lia.
    destruct (Z_lt_ge_dec u ((2 * acc + 1) * 2 ^ Z.of_nat n)).
    + apply (IH _ H0). lia.
    + apply (IH _ H1). lia.
Qed.

(** Checked on each of the 65536 sample codes. *)
Lemma pcm_exact_all : forall_bits 16 pcm_exact 0 = true.
Proof. vm_compute. reflexivity. Qed.

Lemma pcm_to_float_exact k :
  -32768 <= k <= 32767 -> (to_Q (pcm_to_float k) == k # 32768)%Q.
Proof.
  intros Hk.
  pose proof (forall_bits_sound 16 pcm_exact 0 pcm_exact_all (k + 32768)) as Hu.
  unfold pcm_exact in Hu. replace (k + 32768 - 32768) with k in Hu by lia.
  apply Qeq_bool_iff, Hu. cbn. lia.
Qed.

Lemma pcm_sample_decoded k :
  -32768 <= k <= 32767 -> pcm_sample k (pcm_to_float k).
Proof.
  intros Hk. pose proof (pcm_to_float_exact k Hk) as Hq.
  split; [done |]. split; [done |]. rewrite Hq.
  unfold Qle, Qlt; cbn. lia.
Qed.

Lemma int16_le_range lo hi : -32768 <= int16_le lo hi <= 32767.
Proof.
  unfold int16_le.
  pose proof (Byte.to_N_bounded lo). pose proof (Byte.to_N_bounded hi).
  destruct (_ <? 32768) eqn:Hlt; [apply Z.ltb_lt in Hlt | apply Z.ltb_ge in Hlt]; lia.
Qed.

Lemma int16_pairs_spec raw arr :
  int16_pairs raw = Some arr ->
  length raw = (2 * length arr)%nat /\ Forall (fun k => -32768 <= k <= 32767) arr.
Proof.
  remember (length raw) as n eqn:Hn. revert raw arr Hn.
  induction n as [n IH] using lt_wf_ind. intros raw arr Hn.
  destruct raw as [|lo [|hi rest]]; cbn.
  - intros [= <-]. by subst.
  - discriminate.
  - destruct (int16_pairs rest) as [arr'|] eqn:Hrest; [| discriminate].
    intros [= <-]. cbn in Hn.
    destruct (IH (length rest) ltac:(lia) rest arr' eq_refl Hrest) as [Hlen Hall].
    split; [cbn; lia |]. constructor; [apply int16_le_range | done].
Qed.

Lemma frombuffer_int16_spec raw arr :
  frombuffer_int16 raw = Return arr ->
  length raw = (2 * length arr)%nat /\
  Forall2 pcm_sample arr (map pcm_to_float arr).
Proof.
  unfold frombuffer_int16. destruct (int16_pairs raw) as [a|] eqn:Hp; [| discriminate].
  intros [= ->]. apply int16_pairs_spec in Hp as [Hlen Hall]. split; [done |].
  apply Forall2_fmap_r, Forall_Forall2_diag.
  eapply Forall_impl; [exact Hall |]. apply pcm_sample_decoded.
Qed.

End PcmFacts.

(** ** Normalisation in the embedder *)

Module NormalizeFacts.
Import Embedder PcmFacts.

Section Service.
Context `{L : AudioLibs}.

(** The container path returns whatever the codec decoded: a mono file at
    the target rate goes through without any look at its length. *)
Lemma decode_container_unchecked raw wav hint :
  sf_read raw = Return (wav, TARGET_SR) ->
  ndim wav <> 2%nat ->
  _audio_to_tensor raw hint = Return (unsqueeze0 wav, TARGET_SR).
Proof.
  intros Hread Hdim. unfold _audio_to_tensor, decode_container.
  rewrite Hread. cbn. destruct (Nat.eqb_spec (ndim wav) 2); done.
Qed.

Lemma len_vec xs : len (vec xs) = length xs.
Proof. unfold len, vec. by rewrite length_map. Qed.

(** C5, as the code has it: on the raw-PCM path the samples are the
    16-bit codes divided by 32768, in [-1, 1); the check for at least 1600
    samples is made on them before any resampling, so fewer than 1600
    input samples are rejected with 400 whatever the rate hint; from 1600
    samples on, the buffer is returned as it is when the hint is 16000 and
    is the result of the resampler otherwise. *)
Theorem pcm_length_check_precedes_resampling raw hint e0 arr :
  decode_container raw = Raise e0 ->
  frombuffer_int16 raw = Return arr ->
  let wav := map pcm_to_float arr in
  Forall2 pcm_sample arr wav /\
  ((length arr < 1600)%nat -> _audio_to_tensor raw hint = Raise too_short) /\
  ((1600 <= length arr)%nat -> hint = 16000 ->
     _audio_to_tensor raw hint = Return (unsqueeze0 (vec wav), TARGET_SR)) /\
  ((1600 <= length arr)%nat -> hint <> 16000 ->
     _audio_to_tensor raw hint =
       match resample (unsqueeze0 (vec wav)) hint TARGET_SR with
       | Return t => Return (t, TARGET_SR)
       | Raise e => Raise (HTTPException 400 ("Could not parse audio: " +:+ str_exn e))
       end).
Proof.
  intros Hdec Hbuf wav.
  split; [by apply frombuffer_int16_spec in Hbuf as [_ Hs] |].
  unfold _audio_to_tensor, decode_pcm. rewrite Hdec, Hbuf, bind_Return_l.
  subst wav. rewrite len_vec, length_map.
  split_and!.
  - intros Hlt. destruct (Nat.ltb_spec (length arr) 1600); [done | lia].
  - intros Hge ->. destruct (Nat.ltb_spec (length arr) 1600); [lia | done].
  - intros Hge Hne. destruct (Nat.ltb_spec (length arr) 1600); [lia |].
    destruct (Z.eqb_spec hint TARGET_SR); [done |].
    by destruct (resample _ hint TARGET_SR).
Qed.

End Service.

Section Embed.
Context `{L : AudioLibs} `{SB : SpeechBrain}.

Lemma embed_Return req w r w' :
  embed req w = (Return r, w') ->
  exists cl signal emb,
    encode_batch cl signal = Return emb /\ embedding r = squeeze0 emb.
Proof.
  unfold embed.
  destruct (embed_raw req) as [raw|e]; [| discriminate].
  destruct (length raw <? 1600)%nat; [discriminate |].
  destruct (_audio_to_tensor raw 16000) as [[signal sr]|[s d|m]]; try discriminate.
  destruct (_load_classifier w) as [[cl|e] w1]; [| discriminate].
  destruct (encode_batch cl signal) as [emb|e] eqn:Henc; [| discriminate].
  destruct (json_compliant (squeeze0 emb)); [| discriminate].
  intros [= <- _]. cbn. eauto.
Qed.

Lemma nested_not_flat xs n : (1 < n)%nat -> ~ flat_of_length n (Nest [vec xs]).
Proof.
  intros Hn (ys & Hlen & Heq). unfold vec in Heq at 2. injection Heq as Heq.
  apply (f_equal length) in Heq. rewrite length_map in Heq. cbn in Heq. lia.
Qed.

(** When the encoder answers a batch of one with a tensor of shape
    [1, 192], the response is the flat list. *)
Lemma embed_flat_for_2d_output req w r w' :
  (forall cl signal emb, encode_batch cl signal = Return emb ->
     exists xs, length xs = 192%nat /\ emb = Nest [vec xs]) ->
  embed req w = (Return r, w') ->
  flat_of_length 192 (embedding r).
Proof.
  intros Hshape (cl & signal & emb & Henc & ->)%embed_Return.
  destruct (Hshape _ _ _ Henc) as (xs & Hlen & ->). by exists xs.
Qed.

(** C3 at SpeechBrain's output shape: [encode_batch] answers a batch of
    one utterance with a tensor of shape [1, 1, 192], of which
    [squeeze(0)] removes one dimension only; the body of every successful
    /embed response is then a list holding one list of 192 floats, not a
    flat list of 192 floats. *)
Theorem embed_returns_nested_list req w r w' :
  (forall cl signal emb, encode_batch cl signal = Return emb ->
     exists xs, length xs = 192%nat /\ emb = Nest [Nest [vec xs]]) ->
  embed req w = (Return r, w') ->
  exists xs, length xs = 192%nat /\
             embedding r = Nest [vec xs] /\
             len (embedding r) = 1%nat /\
             ~ flat_of_length 192 (embedding r).
Proof.
  intros Hshape (cl & signal & emb & Henc & Hr)%embed_Return.
  destruct (Hshape _ _ _ Henc) as (xs & Hlen & ->). cbn in Hr.
  exists xs. rewrite Hr. split_and!; try done. apply nested_not_flat. lia.
Qed.

End Embed.
End NormalizeFacts.

(** ** Temporary files *)

Module TempFiles.

Section Cleanup.
Context `{L : AudioLibs}.

Lemma cleanup_created p fs :
  unlink_raises p = false -> p ∉ fs -> p ≠ EmptyString ->
  cleanup (Some p) (fs ∪ {[ p ]}) = fs.
Proof.
  intros Hok Hp Hne. unfold cleanup.
  rewrite decide_True by (split; [done | apply elem_of_union_r, elem_of_singleton_2; done]).
  rewrite Hok. apply set_eq. intros x.
  rewrite elem_of_difference, elem_of_union, elem_of_singleton.
  split; [tauto |]. intros Hx. split; [tauto | congruence].
Qed.

Lemma cleanup_created_first p q fs :
  unlink_raises p = false -> p ∉ fs -> p ≠ EmptyString -> q ≠ p ->
  cleanup (Some p) (fs ∪ {[ p ]} ∪ {[ q ]}) = fs ∪ {[ q ]}.
Proof.
  intros Hok Hp Hne Hq. unfold cleanup.
  rewrite decide_True
    by (split; [done | apply elem_of_union_l, elem_of_union_r, elem_of_singleton_2; done]).
  rewrite Hok. apply set_eq. intros x.
  rewrite elem_of_difference, !elem_of_union, !elem_of_singleton.
  split; [tauto |]. intros [Hx | ->]; (split; [tauto | congruence]).
Qed.

End Cleanup.

Section Services.
Context `{L : AudioLibs} `{SB : Embedder.SpeechBrain} `{PA : Pyannote.PyannoteAudio}.

Lemma _load_verification_files w r w' :
  Embedder._load_verification w = (r, w') -> Embedder.files w' = Embedder.files w.
Proof.
  unfold Embedder._load_verification.
  destruct (Embedder._verification w); [by intros [= _ <-] |].
  destruct Embedder.verification_from_hparams; by intros [= _ <-].
Qed.

Lemma _load_pipeline_files w r w' :
  Pyannote._load_pipeline w = (r, w') -> Pyannote.files w' = Pyannote.files w.
Proof.
  unfold Pyannote._load_pipeline.
  destruct (Pyannote._pipeline w); [by intros [= _ <-] |].
  destruct (String.eqb _ _); [by intros [= _ <-] |].
  destruct (Pyannote.from_pretrained _) as [p|e]; [| by intros [= _ <-]].
  destruct Pyannote.cuda_is_available; [| by intros [= _ <-]].
  destruct p as [pl|]; [| by intros [= _ <-]].
  destruct (Pyannote.to_cuda pl); by intros [= _ <-].
Qed.

Lemma verify_files_restored raw1 raw2 w :
  tmp_fresh -> (forall p, unlink_raises p = false) ->
  Embedder.files (Embedder.verify raw1 raw2 w).2 = Embedder.files w.
Proof.
  intros Hfresh Hunlink. unfold Embedder.verify.
  destruct (Embedder._audio_to_tensor raw1 16000) as [[sig1 ?]|e]; [| done].
  destruct (Embedder._audio_to_tensor raw2 16000) as [[sig2 ?]|e]; [| done].
  unfold Embedder.verify_try.
  destruct (tmp_create (Embedder.files w)) as [p1|e] eqn:Hp1; [| done].
  destruct (Hfresh _ _ Hp1) as [Hin1 Hne1].
  destruct (sf_write p1 _); [| by cbn -[cleanup]; rewrite cleanup_created].
  cbn [Embedder.files Embedder.with_files].
  destruct (tmp_create (Embedder.files w ∪ {[ p1 ]})) as [p2|e] eqn:Hp2;
    [| by cbn -[cleanup]; rewrite cleanup_created].
  destruct (Hfresh _ _ Hp2) as [Hin2 Hne2].
  assert (p2 ≠ p1) as Hp21
    by (intros ->; apply Hin2, elem_of_union_r, elem_of_singleton_2; done).
  assert (p2 ∉ Embedder.files w) as Hin2'
    by (intros Hc; apply Hin2, elem_of_union_l, Hc).
  assert (forall fs : gset string,
             fs = Embedder.files w ∪ {[ p1 ]} ∪ {[ p2 ]} ->
             cleanup (Some p2) (cleanup (Some p1) fs) = Embedder.files w)
    as Hboth.
  { intros fs ->. rewrite cleanup_created_first by done. by rewrite cleanup_created. }
  destruct (sf_write p2 _); [| by cbn -[cleanup]; apply Hboth].
  destruct (Embedder._load_verification _) as [[v|e] w3] eqn:Hload;
    apply _load_verification_files in Hload; cbn in Hload;
    [| by cbn -[cleanup]; apply Hboth].
  destruct (Embedder.verify_files v p1 p2) as [[sc pred]|e];
    [destruct (PyFloat.is_finite sc) |]; by cbn -[cleanup]; apply Hboth.
Qed.

Lemma diarize_files_restored raw w :
  tmp_fresh -> (forall p, unlink_raises p = false) ->
  Pyannote.normalize_leaves_no_file raw w ->
  Pyannote.files (Pyannote.diarize raw w).2 = Pyannote.files w.
Proof.
  intros Hfresh Hunlink Hnorm. unfold Pyannote.diarize.
  destruct (length raw <? 1600)%nat; [done |].
  unfold Pyannote.diarize_try.
  destruct (Pyannote._normalize_audio raw w) as [[wav_path|e] w1] eqn:Hn.
  - assert ((wav_path ∉ Pyannote.files w) /\ wav_path ≠ EmptyString /\
            Pyannote.files w1 = Pyannote.files w ∪ {[ wav_path ]}) as (Hin & Hne & Hw1).
    { revert Hn. unfold Pyannote._normalize_audio.
      destruct (sf_read raw) as [[wav sr]|?]; [| discriminate].
      destruct (if sr =? Pyannote.TARGET_SR then _ else _) as [t|?]; [| discriminate].
      destruct (tmp_create (Pyannote.files w)) as [p|?] eqn:Hp; [| discriminate].
      destruct (sf_write p _); [| discriminate].
      intros [= <- <-]. destruct (Hfresh _ _ Hp). done. }
    destruct (Pyannote._load_pipeline w1) as [[[pl|]|e] w2] eqn:Hload;
      apply _load_pipeline_files in Hload;
      [destruct (Pyannote.run pl wav_path) | |];
      cbn -[cleanup]; rewrite Hload, Hw1; by apply cleanup_created.
  - cbn. by eapply Hnorm.
Qed.

(** Where the cleanup does its work: when [os.unlink] does not fail,
    every temp file created by a /verify request, and by a /diarize
    request whose normalisation returns its file or fails before creating
    one, is gone when the request completes, on every exit path; and
    whether [os.unlink] fails or not never changes the result or error of
    either handler. *)
Theorem temp_files_removed_when_unlink_succeeds :
  tmp_fresh -> (forall p, unlink_raises p = false) ->
  (forall raw1 raw2 w,
     Embedder.files (Embedder.verify raw1 raw2 w).2 = Embedder.files w) /\
  (forall raw w,
     Pyannote.normalize_leaves_no_file raw w ->
     Pyannote.files (Pyannote.diarize raw w).2 = Pyannote.files w) /\
  (forall u raw1 raw2 w,
     (@Embedder.verify (with_unlink _ u) _ raw1 raw2 w).1
     = (Embedder.verify raw1 raw2 w).1) /\
  (forall u raw w,
     (@Pyannote.diarize (with_unlink _ u) _ raw w).1 = (Pyannote.diarize raw w).1).
Proof.
  intros Hfresh Hunlink. split_and!.
  - intros. by apply verify_files_restored.
  - intros. by apply diarize_files_restored.
  - intros u raw1 raw2 w. unfold Embedder.verify.
    change (@Embedder._audio_to_tensor (with_unlink _ u))
      with (@Embedder._audio_to_tensor _).
    destruct (Embedder._audio_to_tensor raw1 16000) as [[sig1 ?]|e]; [| done].
    destruct (Embedder._audio_to_tensor raw2 16000) as [[sig2 ?]|e]; [| done].
    change (@Embedder.verify_try (with_unlink _ u)) with (@Embedder.verify_try _).
    by destruct (Embedder.verify_try sig1 sig2 w) as [[[r f1] f2] w'].
  - intros u raw w. unfold Pyannote.diarize.
    destruct (length raw <? 1600)%nat; [done |].
    change (@Pyannote.diarize_try (with_unlink _ u)) with (@Pyannote.diarize_try _).
    by destruct (Pyannote.diarize_try raw w) as [[r p] w'].
Qed.

End Services.
End TempFiles.

(** * The services on concrete inputs *)

Module Runs.
Import Doubles.

Lemma libs_tmp_fresh wf uf : @tmp_fresh (libs wf uf).
Proof.
  intros fs p [= <-].
  pose proof (is_fresh ({[ EmptyString ]} ∪ fs)) as Hf.
  split.
  - intros Hin. apply Hf, elem_of_union_r, Hin.
  - intros Heq. apply Hf, elem_of_union_l, elem_of_singleton_2. by rewrite Heq.
Qed.

Lemma diarize_run_late_first :
  (diarize_run late_first token_env).1 = Return late_first_response.
Proof. vm_compute. reflexivity. Qed.

(** ** /diarize *)

Lemma diarize_run_eq (turns : list Pyannote.turn) env r :
  (diarize_run turns env).1 = Return r ->
  @Pyannote.diarize (libs false false) (pyannote turns) wav_3200 (pyannote_world0 env)
  = (Return r, (diarize_run turns env).2).
Proof. unfold diarize_run. intros <-. by destruct (Pyannote.diarize _ _). Qed.

(** The run of [late_first] through /diarize, for the properties of its
    response. *)
Lemma diarize_segments_sorted_witness :
  StronglySorted Pyannote.seg_le (Pyannote.segments late_first_response).
Proof.
  apply (DiarizeHandler.diarize_segments_sorted
           (L := libs false false) (PA := pyannote late_first)
           wav_3200 (pyannote_world0 token_env) late_first_response
           (diarize_run late_first token_env).2).
  apply diarize_run_eq. vm_compute. reflexivity.
Defined.

Lemma diarize_duration_sec_witness :
  exists f, PyFloat.of_int 6000 = Return f /\
            Pyannote.duration_sec late_first_response = PyFloat.div f PyFloat.thousand.
Proof.
  apply (DiarizeHandler.diarize_duration_sec
           (L := libs false false) (PA := pyannote late_first)
           wav_3200 (pyannote_world0 token_env) late_first_response
           (diarize_run late_first token_env).2).
  apply diarize_run_eq. vm_compute. reflexivity.
Defined.

Lemma diarize_labels_first_seen_witness :
  exists pl wav_path turns emitted,
    (exists w1 w2,
       @Pyannote._normalize_audio (libs false false) (pyannote late_first)
         wav_3200 (pyannote_world0 token_env) = (Return wav_path, w1) /\
       @Pyannote._load_pipeline (pyannote late_first) w1 = (Return (Some pl), w2)) /\
    @Pyannote.run (pyannote late_first) pl wav_path = Return turns /\
    Pyannote.segments late_first_response = Pyannote.sort emitted /\
    let order := Pyannote.first_seen (Pyannote.turn_speaker <$> turns) in
    Forall2 (Pyannote.emitted_for order) turns emitted /\
    Pyannote.speaker <$> emitted
      = (fun tr => Pyannote.label_of order (Pyannote.turn_speaker tr)) <$> turns /\
    (forall i sp, order !! i = Some sp -> Pyannote.label_of order sp = "S" +:+ pretty i) /\
    (forall tr sg, head turns = Some tr -> head emitted = Some sg ->
                   order !! 0%nat = Some (Pyannote.turn_speaker tr) /\
                   Pyannote.speaker sg = "S0"%string) /\
    (forall i j tr1 tr2 sg1 sg2,
       turns !! i = Some tr1 -> turns !! j = Some tr2 ->
       emitted !! i = Some sg1 -> emitted !! j = Some sg2 ->
       Pyannote.turn_speaker tr1 = Pyannote.turn_speaker tr2 ->
       Pyannote.speaker sg1 = Pyannote.speaker sg2) /\
    (forall sp, sp ∈ order <-> sp ∈ Pyannote.turn_speaker <$> turns) /\
    NoDup order /\
    Pyannote.speaker_count late_first_response = length order /\
    Pyannote.speaker_count late_first_response
      = length (remove_dups (Pyannote.speaker <$> Pyannote.segments late_first_response)).
Proof.
  apply (DiarizeHandler.diarize_labels_first_seen
           (L := libs false false) (PA := pyannote late_first)
           wav_3200 (pyannote_world0 token_env) late_first_response
           (diarize_run late_first token_env).2).
  apply diarize_run_eq. vm_compute. reflexivity.
Defined.

Lemma diarize_boundaries_round_half_even_witness :
  exists pl wav_path turns emitted,
    @Pyannote.run (pyannote late_first) pl wav_path = Return turns /\
    Pyannote.segments late_first_response = Pyannote.sort emitted /\
    Forall2 (fun tr sg =>
               Pyannote.ms_of (Pyannote.turn_start tr) (Pyannote.start_ms sg) /\
               Pyannote.ms_of (Pyannote.turn_end tr) (Pyannote.end_ms sg)) turns emitted.
Proof.
  apply (DiarizeHandler.diarize_boundaries_round_half_even
           (L := libs false false) (PA := pyannote late_first)
           wav_3200 (pyannote_world0 token_env) late_first_response
           (diarize_run late_first token_env).2).
  apply diarize_run_eq. vm_compute. reflexivity.
Defined.

(** C2, as the spec has it, fails: 0.0625 s times 1000 is exactly 62.5,
    and the emitted value is 62, not 63; 62 is not the nearest integer
    with ties away from zero. *)
Lemma half_millisecond_rounds_to_even :
  let v := PyFloat.to_Q (PyFloat.mul (PyFloat.max PyFloat.zero sixteenth) PyFloat.thousand) in
  valid_binary 53 1024 sixteenth = true /\
  (v == 62 + (1 # 2))%Q /\
  Pyannote.to_ms sixteenth = Return 62 /\
  ~ PyFloat.nearest_away v 62 /\
  (exists r, (diarize_run [ {| Pyannote.turn_start := sixteenth;
                               Pyannote.turn_end := sixteenth;
                               Pyannote.turn_speaker := "A" |} ] token_env).1 = Return r /\
             Pyannote.segments r =
               [ {| Pyannote.speaker := "S0"; Pyannote.start_ms := 62;
                    Pyannote.end_ms := 62 |} ]).
Proof.
  cbv zeta. split_and!.
  - vm_compute. reflexivity.
  - vm_compute. reflexivity.
  - vm_compute. reflexivity.
  - intros [_ Haway]. revert Haway. vm_compute. intros Haway.
    apply Haway; reflexivity.
  - eexists. split; vm_compute; reflexivity.
Qed.

(** C10: a pipeline that yields the later turn first makes the earliest
    segment of the sorted /diarize response carry ["S1"]: labels are given
    in raw iteration order, before the sort. *)
Theorem first_sorted_segment_not_S0 :
  exists (turns : list Pyannote.turn) (first : Pyannote.turn)
         (r : Pyannote.response) (sg : Pyannote.segment),
    head turns = Some first /\
    (diarize_run turns token_env).1 = Return r /\
    Pyannote.shape turns = Return r /\
    head (Pyannote.segments r) = Some sg /\
    Pyannote.speaker sg = "S1"%string /\
    Pyannote.speaker sg <> "S0"%string /\
    Pyannote.to_ms (Pyannote.turn_start first) = Return 5000 /\
    Pyannote.start_ms sg = 0.
Proof.
  exists late_first. eexists. exists late_first_response. eexists.
  split_and!; try (vm_compute; reflexivity). discriminate.
Qed.

(** With PYANNOTE_AUTH_TOKEN empty and the two others set, HF_TOKEN is
    the token; with an empty environment there is none, and the first
    request that reaches the pipeline is answered with the configuration
    error. *)
Lemma missing_token_is_500_on_first_use_witness :
  Pyannote._auth_token second_variable_env = "hf_token"%string /\
  Pyannote._auth_token ∅ = EmptyString /\
  exists w',
    @Pyannote.diarize (libs false false) (pyannote late_first) wav_3200
      (pyannote_world0 ∅)
      = (Raise (HTTPException 500 Pyannote.missing_token), w') /\
    http_status (@Pyannote.diarize (libs false false) (pyannote late_first) wav_3200
                   (pyannote_world0 ∅)).1
      = 500 /\
    Pyannote._pipeline w' = None.
Proof.
  destruct (DiarizeConfig.missing_token_is_500_on_first_use
              (L := libs false false) (PA := pyannote late_first))
    as (_ & Hwin & Hnone & H500).
  split_and!.
  - apply (Hwin second_variable_env "hf_token"%string).
    + split; [discriminate |]. right. left.
      split; [right |]; vm_compute; reflexivity.
    + split; intros c; vm_compute; intros [= <-]; reflexivity.
  - apply Hnone; left; vm_compute; reflexivity.
  - apply (H500 wav_3200 (pyannote_world0 ∅) "0"%string
             (@Pyannote._normalize_audio (libs false false) (pyannote late_first)
                wav_3200 (pyannote_world0 ∅)).2).
    + reflexivity.
    + vm_compute. reflexivity.
    + apply Nat.leb_le. vm_compute. reflexivity.
    + vm_compute. reflexivity.
Defined.

(** A whitespace-only first variable is non-empty, so it wins, and is
    stripped to no token at all even though HF_TOKEN is set. *)
Lemma blank_first_variable_wins :
  Pyannote._auth_token
    {[ "PYANNOTE_AUTH_TOKEN"%string := " "%string; "HF_TOKEN"%string := "hf_token"%string ]}
  = EmptyString.
Proof. vm_compute. reflexivity. Qed.

(** ** /embed and /verify *)

(** C1 fails on the code: a 52-byte WAV file of four samples is decoded by
    the container path, which has no length check, and /verify, which has
    no ingress check either, answers 200; a 1644-byte WAV file of 800
    samples passes the byte check of /embed and of /diarize and is
    answered with 200 as well. *)
Theorem short_wav_is_accepted :
  (length short_wav < 1600)%nat /\
  @Embedder._audio_to_tensor (libs false false) short_wav 16000
    = Return (unsqueeze0 (vec (repeat PyFloat.zero 4)), 16000) /\
  http_status
    (@Embedder.verify (libs false false) speechbrain short_wav short_wav embedder_world0).1
    = 200 /\
  (exists t, @Embedder._audio_to_tensor (libs false false) wav_800 16000 = Return (t, 16000) /\
             len (squeeze0 t) = 800%nat) /\
  http_status
    (@Embedder.embed (libs false false) speechbrain (octet_stream wav_800) embedder_world0).1
    = 200 /\
  http_status
    (@Pyannote.diarize (libs false false) (pyannote late_first) wav_800
       (pyannote_world0 token_env)).1
    = 200.
Proof.
  split_and!; try (vm_compute; reflexivity).
  - apply Nat.ltb_lt. vm_compute. reflexivity.
  - eexists. split; vm_compute; reflexivity.
Qed.

Lemma speechbrain_shape cl signal emb :
  @Embedder.encode_batch speechbrain cl signal = Return emb ->
  exists xs, length xs = 192%nat /\ emb = Nest [Nest [vec xs]].
Proof. intros [= <-]. exists zero_embedding. split; reflexivity. Qed.

(** 3200 samples of silence sent to /embed as an octet stream. *)
Lemma embed_returns_nested_list_witness :
  exists xs, length xs = 192%nat /\
             Nest [vec zero_embedding] = Nest [vec xs] /\
             len (Nest [vec zero_embedding]) = 1%nat /\
             ~ flat_of_length 192 (Nest [vec zero_embedding]).
Proof.
  apply (NormalizeFacts.embed_returns_nested_list
           (L := libs false false) (SB := speechbrain)
           (octet_stream (pcm_zeros 3200)) embedder_world0
           {| Embedder.embedding := Nest [vec zero_embedding] |}
           (@Embedder.embed (libs false false) speechbrain
              (octet_stream (pcm_zeros 3200)) embedder_world0).2).
  - apply speechbrain_shape.
  - vm_compute. reflexivity.
Defined.

(** C5, as the spec has it, fails: 1000 samples of raw PCM with a rate
    hint of 8000 would resample to 2000 samples, yet they are rejected
    with 400, because the length is checked before resampling. *)
Lemma thousand_samples_at_8k_rejected :
  let raw := pcm_zeros 1000 in
  (exists e, @Embedder.decode_container (libs false false) raw = Raise e) /\
  frombuffer_int16 raw = Return (repeat 0 1000) /\
  (exists t, hold_resample (unsqueeze0 (vec (repeat PyFloat.zero 1000))) 8000 16000
             = Return t /\ len (squeeze0 t) = 2000%nat) /\
  @Embedder._audio_to_tensor (libs false false) raw 8000 = Raise Embedder.too_short /\
  http_status (@Embedder._audio_to_tensor (libs false false) raw 8000) = 400.
Proof.
  cbv zeta. split_and!; try (vm_compute; reflexivity).
  - eexists. vm_compute. reflexivity.
  - eexists. split; vm_compute; reflexivity.
Qed.

(** 1600 samples with a hint of 8000 pass the check and are resampled. *)
Lemma pcm_length_check_precedes_resampling_witness :
  let raw := pcm_zeros 1600 in
  let arr := repeat 0 1600 in
  let wav := map pcm_to_float arr in
  Forall2 pcm_sample arr wav /\
  ((length arr < 1600)%nat ->
     @Embedder._audio_to_tensor (libs false false) raw 8000 = Raise Embedder.too_short) /\
  ((1600 <= length arr)%nat -> 8000 = 16000 ->
     @Embedder._audio_to_tensor (libs false false) raw 8000
       = Return (unsqueeze0 (vec wav), Embedder.TARGET_SR)) /\
  ((1600 <= length arr)%nat -> 8000 <> 16000 ->
     @Embedder._audio_to_tensor (libs false false) raw 8000 =
       match hold_resample (unsqueeze0 (vec wav)) 8000 Embedder.TARGET_SR with
       | Return t => Return (t, Embedder.TARGET_SR)
       | Raise e => Raise (HTTPException 400 ("Could not parse audio: " +:+ str_exn e))
       end).
Proof.
  cbv zeta.
  apply (NormalizeFacts.pcm_length_check_precedes_resampling
           (L := libs false false) (pcm_zeros 1600) 8000
           (Exception "Error opening file: Format not recognised.") (repeat 0 1600)).
  - vm_compute. reflexivity.
  - vm_compute. reflexivity.
Defined.

(** ** Temporary files *)

(** C4: with an [os.unlink] that works, a /diarize request whose
    [sf.write] raises inside [_normalize_audio] (a full disk, say) is
    answered 500 and leaves behind the temp file that was just created:
    the exception leaves [_normalize_audio] before [wav_path] is assigned
    in the handler, so the [finally] block finds [wav_path] to be [None]
    and deletes nothing; a second such request leaves a second file.  The
    sibling handler /verify, given the same body under the same failure,
    assigns [f1_path] before it writes and leaves no file. *)
Theorem diarize_write_failure_leaves_temp_file :
  let w := @pyannote_world0 (pyannote late_first) token_env in
  let out := @Pyannote.diarize (libs true false) (pyannote late_first) wav_3200 w in
  let again := @Pyannote.diarize (libs true false) (pyannote late_first) wav_3200 out.2 in
  let sibling := @Embedder.verify (libs true false) speechbrain
                   wav_3200 wav_3200 embedder_world0 in
  (1600 <= length wav_3200)%nat /\
  (forall p, @unlink_raises (libs true false) p = false) /\
  Pyannote.files w = ∅ /\
  (@Pyannote.diarize_try (libs true false) (pyannote late_first) wav_3200 w).1
    = (Raise (Exception "Error opening file: System error."), None) /\
  out.1 = Raise (HTTPException 500 "Error opening file: System error.") /\
  elements (Pyannote.files out.2) = ["0"%string] /\
  elements (Pyannote.files again.2) = ["1"; "0"]%string /\
  Embedder.files (embedder_world0 (SB := speechbrain)) = ∅ /\
  sibling.1 = Raise (Exception "Error opening file: System error.") /\
  Embedder.files sibling.2 = ∅.
Proof.
  cbv zeta. split_and!; try (vm_compute; reflexivity).
  apply Nat.leb_le. vm_compute. reflexivity.
Qed.

(** Deletion is best effort: when [os.unlink] raises, /verify answers 200
    and both of its temp files stay. *)
Lemma temp_files_left_behind :
  let out := @Embedder.verify (libs false true) speechbrain
               short_wav short_wav embedder_world0 in
  http_status out.1 = 200 /\
  Embedder.files (embedder_world0 (SB := speechbrain)) = ∅ /\
  elements (Embedder.files out.2) = ["1"; "0"]%string.
Proof. cbv zeta. split_and!; vm_compute; reflexivity. Qed.

Lemma silence_normalizes :
  @Pyannote.normalize_leaves_no_file (libs false false) (pyannote late_first)
    wav_3200 (pyannote_world0 token_env).
Proof. intros e w1 Hn. vm_compute in Hn. discriminate. Qed.

(** With an [os.unlink] that works, both handlers leave the directory as
    they found it, and answer the same when it does not work. *)
Lemma temp_files_removed_when_unlink_succeeds_witness :
  let always_fails := fun _ : string => true in
  Embedder.files
    (@Embedder.verify (libs false false) speechbrain short_wav short_wav embedder_world0).2
    = ∅ /\
  Pyannote.files
    (@Pyannote.diarize (libs false false) (pyannote late_first) wav_3200
       (pyannote_world0 token_env)).2
    = ∅ /\
  (@Embedder.verify (with_unlink (libs false false) always_fails) speechbrain
     short_wav short_wav embedder_world0).1
  = (@Embedder.verify (libs false false) speechbrain short_wav short_wav embedder_world0).1 /\
  (@Pyannote.diarize (with_unlink (libs false false) always_fails) (pyannote late_first)
     wav_3200 (pyannote_world0 token_env)).1
  = (@Pyannote.diarize (libs false false) (pyannote late_first) wav_3200
       (pyannote_world0 token_env)).1.
Proof.
  cbv zeta.
  destruct (TempFiles.temp_files_removed_when_unlink_succeeds
              (L := libs false false) (SB := speechbrain) (PA := pyannote late_first)
              (libs_tmp_fresh false false) (fun _ => eq_refl))
    as (Hverify & Hdiarize & Hsame_v & Hsame_d).
  split_and!.
  - apply Hverify.
  - apply Hdiarize, silence_normalizes.
  - apply Hsame_v.
  - apply Hsame_d.
Defined.

End Runs.

(** * Further properties of the embedder *)

Module EmbedderMore.
Import Embedder PcmFacts.

Lemma int16_pairs_odd raw :
  Nat.odd (length raw) = true -> int16_pairs raw = None.
Proof.
  remember (length raw) as n eqn:Hn. revert raw Hn.
  induction n as [n IH] using lt_wf_ind. intros raw Hn Hodd.
  destruct raw as [|lo [|hi rest]]; cbn in *.
  - subst. discriminate.
  - reflexivity.
  - subst n. rewrite (IH (length rest)); [done | lia | done |].
    change (Nat.odd (S (S (length rest)))) with (Nat.odd (length rest)) in Hodd. done.
Qed.

Section Service.
Context `{L : AudioLibs} `{SB : SpeechBrain}.

Lemma decode_container_rate raw t sr :
  decode_container raw = Return (t, sr) -> sr = TARGET_SR.
Proof.
  unfold decode_container.
  intros ([wav sr0] & _ & Hrest)%bind_Return.
  apply bind_Return in Hrest as (wav' & _ & Hrest). by injection Hrest as _ <-.
Qed.

Lemma decode_pcm_rate raw hint t sr :
  decode_pcm raw hint = Return (t, sr) -> sr = TARGET_SR.
Proof.
  unfold decode_pcm. intros (arr & _ & Hrest)%bind_Return.
  destruct (len _ <? 1600)%nat; [discriminate |].
  apply bind_Return in Hrest as (t' & _ & Hrest). by injection Hrest as _ <-.
Qed.

Lemma _audio_to_tensor_Raise raw hint e :
  _audio_to_tensor raw hint = Raise e -> exists d, e = HTTPException 400 d.
Proof.
  unfold _audio_to_tensor. destruct (decode_container raw); [discriminate |].
  destruct (decode_pcm raw hint); [discriminate |]. intros [= <-]. eauto.
Qed.

(** X1: [_audio_to_tensor] has two outcomes only: a tensor at 16000 Hz,
    or HTTP 400 whose detail is ["Could not parse audio: "] followed by the
    message of what went wrong on the raw-PCM path; whatever the codec
    raised is never reported. *)
Theorem _audio_to_tensor_outcomes raw hint :
  (exists t, _audio_to_tensor raw hint = Return (t, TARGET_SR)) \/
  (exists e0 e,
     decode_container raw = Raise e0 /\
     decode_pcm raw hint = Raise e /\
     _audio_to_tensor raw hint
       = Raise (HTTPException 400 ("Could not parse audio: " +:+ str_exn e)) /\
     http_status (_audio_to_tensor raw hint) = 400).
Proof.
  unfold _audio_to_tensor.
  destruct (decode_container raw) as [[t sr]|e0] eqn:Hc.
  - left. apply decode_container_rate in Hc as ->. eauto.
  - destruct (decode_pcm raw hint) as [[t sr]|e] eqn:Hp.
    + left. apply decode_pcm_rate in Hp as ->. eauto.
    + right. exists e0, e. done.
Qed.

(** X2: bytes that the codec does not decode and whose number is odd are
    rejected with 400 and numpy's buffer-size message, whatever the rate
    hint. *)
Theorem odd_length_pcm_rejected raw hint e0 :
  decode_container raw = Raise e0 ->
  Nat.odd (length raw) = true ->
  _audio_to_tensor raw hint
  = Raise (HTTPException 400
             "Could not parse audio: buffer size must be a multiple of element size").
Proof.
  intros Hc Hodd. unfold _audio_to_tensor, decode_pcm, frombuffer_int16.
  rewrite Hc, (int16_pairs_odd _ Hodd). reflexivity.
Qed.

(** X3: a multi-channel file at 16 kHz is collapsed to one channel, with
    one sample (the mean of the frame) per frame, and returned as a
    (1, frames) tensor without resampling or length check. *)
Theorem multichannel_is_averaged raw hint frames :
  sf_read raw = Return (Nest frames, TARGET_SR) ->
  ndim (Nest frames) = 2%nat ->
  _audio_to_tensor raw hint
    = Return (unsqueeze0 (vec (map frame_mean frames)), TARGET_SR) /\
  len (vec (map frame_mean frames)) = length frames.
Proof.
  intros Hread Hdim. split.
  - unfold _audio_to_tensor, decode_container. rewrite Hread, bind_Return_l.
    rewrite Hdim. cbn. unfold vec. by rewrite map_map.
  - unfold len, vec. by rewrite !length_map.
Qed.

(** X4: /embed treats an upload in the multipart field [audio], or in
    [file] when [audio] is absent or an empty string, exactly like a raw
    body holding the same bytes. *)
Theorem embed_upload_like_body req req' fm content w :
  contains "multipart" (default EmptyString (content_type req)) = true ->
  form req = Return fm ->
  fm !! "audio"%string = Some (UploadFile content) \/
  (truthy (fm !! "audio"%string) = false /\
   fm !! "file"%string = Some (UploadFile content)) ->
  contains "multipart" (default EmptyString (content_type req')) = false ->
  body req' = content ->
  embed req w = embed req' w.
Proof.
  intros Hct Hform Hfield Hct' Hbody.
  assert (embed_raw req = Return content) as Hraw.
  { unfold embed_raw. rewrite Hct, Hform, bind_Return_l.
    destruct Hfield as [Haudio | [Hfalsy Hfile]].
    - by rewrite Haudio.
    - by rewrite Hfalsy, Hfile. }
  assert (embed_raw req' = Return content) as Hraw'.
  { unfold embed_raw. by rewrite Hct', Hbody. }
  unfold embed. by rewrite Hraw, Hraw'.
Qed.

(** X5: a multipart request is rejected with 400, before anything is
    decoded or loaded, when its [audio] field is a non-empty text value
    (even if [file] holds an upload), and when [audio] is absent or empty
    and [file] is not an upload. *)
Theorem embed_multipart_without_upload req fm w :
  contains "multipart" (default EmptyString (content_type req)) = true ->
  form req = Return fm ->
  (exists s, s <> EmptyString /\ fm !! "audio"%string = Some (FormText s)) \/
  (truthy (fm !! "audio"%string) = false /\
   forall content, fm !! "file"%string <> Some (UploadFile content)) ->
  embed req w
  = (Raise (HTTPException 400 "Multipart form must include 'audio' file"), w).
Proof.
  intros Hct Hform Hfield. unfold embed, embed_raw.
  rewrite Hct, Hform, bind_Return_l.
  destruct Hfield as [(s & Hs & Haudio) | [Hfalsy Hfile]].
  - rewrite Haudio. cbn. destruct (String.eqb_spec s ""); [done |]. reflexivity.
  - rewrite Hfalsy. destruct (fm !! "file"%string) as [[c|s]|] eqn:Hf; try reflexivity.
    by destruct (Hfile c).
Qed.

(** X6: /embed never creates or deletes a file and never touches the
    verifier; a classifier that is cached stays the cached one, and after
    a 200 there is one. *)
Theorem embed_frame req w r w' :
  embed req w = (r, w') ->
  files w' = files w /\
  _verification w' = _verification w /\
  (is_Some (_classifier w) -> _classifier w' = _classifier w) /\
  (forall a, r = Return a -> is_Some (_classifier w')).
Proof.
  unfold embed.
  destruct (embed_raw req) as [raw|e]; [| intros [= <- <-]; by split_and!].
  destruct (length raw <? 1600)%nat; [intros [= <- <-]; by split_and! |].
  destruct (_audio_to_tensor raw 16000) as [[signal sr]|[s d|m]];
    try (intros [= <- <-]; by split_and!).
  unfold _load_classifier.
  destruct (_classifier w) as [c|] eqn:Hc.
  - destruct (encode_batch c signal) as [emb|e];
      [destruct (json_compliant _) |]; intros [= <- <-]; rewrite ?Hc;
      split_and!; try done; by eexists.
  - destruct classifier_from_hparams as [c|e].
    + destruct (encode_batch c signal) as [emb|e];
        [destruct (json_compliant _) |]; intros [= <- <-]; cbn;
        split_and!; try done; try (by intros []); by eexists.
    + intros [= <- <-]. rewrite Hc. by split_and!.
Qed.

(** X7: the loader of the classifier builds it at most once: a load that
    succeeds leaves the classifier cached, so that every later load
    returns the same one and changes nothing; a load that fails changes
    nothing, so that the next one tries again. *)
Theorem _load_classifier_once w r w1 :
  _load_classifier w = (r, w1) ->
  files w1 = files w /\ _verification w1 = _verification w /\
  match r with
  | Return c => _classifier w1 = Some c /\ _load_classifier w1 = (Return c, w1)
  | Raise e => w1 = w /\ _classifier w = None /\ classifier_from_hparams = Raise e
  end.
Proof.
  unfold _load_classifier. destruct (_classifier w) as [c|] eqn:Hc.
  - intros [= <- <-]. by rewrite Hc.
  - destruct classifier_from_hparams as [c|e]; intros [= <- <-]; by cbn.
Qed.

(** X8: the same for the verifier. *)
Theorem _load_verification_once w r w1 :
  _load_verification w = (r, w1) ->
  files w1 = files w /\ _classifier w1 = _classifier w /\
  match r with
  | Return v => _verification w1 = Some v /\ _load_verification w1 = (Return v, w1)
  | Raise e => w1 = w /\ _verification w = None /\ verification_from_hparams = Raise e
  end.
Proof.
  unfold _load_verification. destruct (_verification w) as [v|] eqn:Hv.
  - intros [= <- <-]. by rewrite Hv.
  - destruct verification_from_hparams as [v|e]; intros [= <- <-]; by cbn.
Qed.

(** X9: when either upload of /verify is rejected by normalisation, the
    answer is 400 (the first upload's error when both are bad), no file is
    created and no model is loaded. *)
Theorem verify_rejects_bad_upload raw1 raw2 w :
  (exists e, _audio_to_tensor raw1 16000 = Raise e) \/
  (exists e, _audio_to_tensor raw2 16000 = Raise e) ->
  exists d, verify raw1 raw2 w = (Raise (HTTPException 400 d), w) /\
            forall e1, _audio_to_tensor raw1 16000 = Raise e1 ->
                       e1 = HTTPException 400 d.
Proof.
  intros Hbad. unfold verify.
  destruct (_audio_to_tensor raw1 16000) as [[sig1 sr1]|e1] eqn:H1.
  - destruct Hbad as [[e He] | [e He]]; [discriminate |].
    rewrite He. apply _audio_to_tensor_Raise in He as (d & ->).
    exists d. split; [done |]. discriminate.
  - apply _audio_to_tensor_Raise in H1 as (d & ->).
    exists d. split; [done |]. by intros e1 [= <-].
Qed.

(** X10: a 200 from /verify carries exactly what the verifier returned for
    two distinct files, neither of which existed before the request; its
    score is a finite float. *)
Theorem verify_answers_from_fresh_files raw1 raw2 w r w' :
  tmp_fresh ->
  verify raw1 raw2 w = (Return r, w') ->
  exists v p1 p2,
    p1 <> p2 /\ (p1 ∉ files w) /\ (p2 ∉ files w) /\
    verify_files v p1 p2 = Return (score r, same_speaker r) /\
    PyFloat.is_finite (score r) = true.
Proof.
  intros Hfresh. unfold verify.
  destruct (_audio_to_tensor raw1 16000) as [[sig1 ?]|e]; [| discriminate].
  destruct (_audio_to_tensor raw2 16000) as [[sig2 ?]|e]; [| discriminate].
  unfold verify_try.
  destruct (tmp_create (files w)) as [p1|e] eqn:Hp1; [| discriminate].
  destruct (Hfresh _ _ Hp1) as [Hin1 _].
  destruct (sf_write p1 _); [| discriminate].
  cbn [files with_files].
  destruct (tmp_create (files w ∪ {[ p1 ]})) as [p2|e] eqn:Hp2; [| discriminate].
  destruct (Hfresh _ _ Hp2) as [Hin2 _].
  destruct (sf_write p2 _); [| discriminate].
  destruct (_load_verification _) as [[v|e] w3]; [| discriminate].
  destruct (verify_files v p1 p2) as [[sc pred]|e] eqn:Hv; [| discriminate].
  destruct (PyFloat.is_finite sc) eqn:Hfin; [| discriminate].
  intros [= <- _]. exists v, p1, p2. cbn. split_and!; try done.
  - intros ->. apply Hin2, elem_of_union_r, elem_of_singleton_2. done.
  - intros Hc. apply Hin2, elem_of_union_l, Hc.
Qed.

End Service.
End EmbedderMore.

(** * Further properties of the diarizer *)

Module DiarizeMore.
Import Pyannote PyFloat PyFloatFacts ShapeFacts SortFacts DiarizeFacts.

(** ** The token *)

Lemma lstrip_spaces l :
  Forall (fun c => is_space c = true) (lstrip l) <->
  Forall (fun c => is_space c = true) l.
Proof.
  induction l as [|c l IH]; [done |]. cbn.
  destruct (is_space c) eqn:Hc; [| done].
  rewrite IH. split; [by constructor | by inversion 1].
Qed.

Lemma lstrip_nil l : lstrip l = [] <-> Forall (fun c => is_space c = true) l.
Proof.
  induction l as [|c l IH]; [done |]. cbn.
  destruct (is_space c) eqn:Hc.
  - rewrite IH. split; [by constructor | by inversion 1].
  - split; [discriminate |]. inversion 1; congruence.
Qed.

Lemma strip_empty s : strip s = EmptyString <-> all_space s.
Proof.
  unfold strip, all_space.
  set (l := String.list_ascii_of_string s).
  assert (forall k, String.string_of_list_ascii k = EmptyString <-> k = []) as Hnil
    by (intros [|? ?]; done).
  rewrite Hnil.
  assert (forall k : list Ascii.ascii, rev k = [] <-> k = []) as Hrev.
  { intros k. split; [| by intros ->].
    intros Hk. apply (f_equal (@length _)) in Hk. rewrite length_rev in Hk.
    by destruct k. }
  rewrite Hrev, lstrip_nil, <- (lstrip_spaces l).
  split; intros Hall.
  - apply Forall_rev in Hall. by rewrite rev_involutive in Hall.
  - by apply Forall_rev.
Qed.

(** X11: the service finds no token exactly when the first non-empty of
    the three variables consists of whitespace only, or none of them is
    set to a non-empty value: a blank PYANNOTE_AUTH_TOKEN hides a good
    HF_TOKEN. *)
Theorem no_token_iff_blank (env : gmap string string) :
  _auth_token env = EmptyString <->
  all_space (first_nonempty [env !! "PYANNOTE_AUTH_TOKEN"%string;
                             env !! "HF_TOKEN"%string;
                             env !! "HUGGINGFACE_TOKEN"%string]).
Proof.
  rewrite <- strip_empty. unfold _auth_token.
  rewrite <- !DiarizeConfig.or_else_first_nonempty. reflexivity.
Qed.

Section Handler.
Context `{L : AudioLibs} `{PA : PyannoteAudio}.

(** ** The pipeline cache *)

(** X12: a load that returns leaves what it returns in the cache, keeps
    files and environment, and when it returns a pipeline every later
    load returns the same one and changes nothing. *)
Theorem _load_pipeline_once w o w1 :
  _load_pipeline w = (Return o, w1) ->
  _pipeline w1 = o /\ files w1 = files w /\ environ w1 = environ w /\
  (is_Some o -> _load_pipeline w1 = (Return o, w1)).
Proof.
  unfold _load_pipeline. destruct (_pipeline w) as [p|] eqn:Hp.
  - intros [= <- <-]. rewrite Hp. by split_and!.
  - destruct (String.eqb _ _); [discriminate |].
    destruct (from_pretrained _) as [o'|e]; [| discriminate].
    destruct cuda_is_available.
    + destruct o' as [pl|]; [| discriminate].
      destruct (to_cuda pl); [| discriminate].
      intros [= <- <-]. cbn. by split_and!.
    + intros [= <- <-]. cbn. split_and!; try done. by intros [pl ->].
Qed.

(** X13: when the pipeline loads and moving it to the GPU raises, the
    pipeline is cached all the same: the first load raises, and every
    later load returns the pipeline, which was never moved. *)
Theorem pipeline_cached_when_cuda_fails w pl e :
  _pipeline w = None ->
  _auth_token (environ w) <> EmptyString ->
  from_pretrained (_auth_token (environ w)) = Return (Some pl) ->
  cuda_is_available = true ->
  to_cuda pl = Raise e ->
  exists w1,
    _load_pipeline w = (Raise e, w1) /\
    _load_pipeline w1 = (Return (Some pl), w1).
Proof.
  intros Hnone Htok Hload Hcuda Hmove. unfold _load_pipeline at 1.
  rewrite Hnone. destruct (String.eqb_spec (_auth_token (environ w)) ""); [done |].
  rewrite Hload, Hcuda, Hmove. eexists. split; [reflexivity |]. reflexivity.
Qed.

(** ** Files *)

Lemma with_files_same (w : world) : with_files w (files w) = w.
Proof. by destruct w. Qed.

(** X14: a normalisation that returns has decoded the bytes with the
    codec and created exactly one file, under a name no file had, and has
    left environment and pipeline cache alone. *)
Theorem _normalize_audio_creates_one_file raw w p w1 :
  tmp_fresh ->
  _normalize_audio raw w = (Return p, w1) ->
  (p ∉ files w) /\ p <> EmptyString /\
  files w1 = files w ∪ {[ p ]} /\
  environ w1 = environ w /\ _pipeline w1 = _pipeline w /\
  exists wav sr, sf_read raw = Return (wav, sr).
Proof.
  intros Hfresh. unfold _normalize_audio.
  destruct (sf_read raw) as [[wav sr]|?]; [| discriminate].
  destruct (if sr =? TARGET_SR then _ else _) as [t|?]; [| discriminate].
  destruct (tmp_create (files w)) as [q|?] eqn:Hq; [| discriminate].
  destruct (sf_write q _); [| discriminate].
  intros [= <- <-]. destruct (Hfresh _ _ Hq). cbn. split_and!; eauto.
Qed.

(** X15: when normalisation raises on a body of at least 1600 bytes,
    /diarize deletes nothing: it answers with that error (as it is when it
    is an HTTP error, as a 500 otherwise) and leaves the files as
    normalisation left them, which is as they were, or with the new
    temporary file when it was [sf.write] that raised. *)
Theorem diarize_after_failed_normalisation raw w e w1 :
  tmp_fresh ->
  (1600 <= length raw)%nat ->
  _normalize_audio raw w = (Raise e, w1) ->
  diarize raw w = (to_http (Raise e), w1) /\
  (files w1 = files w \/
   exists p t, (p ∉ files w) /\ sf_write p t = Raise e /\
               files w1 = files w ∪ {[ p ]}).
Proof.
  intros Hfresh Hlen Hn. split.
  - unfold diarize, diarize_try.
    destruct (Nat.ltb_spec (length raw) 1600); [lia |].
    rewrite Hn. cbn [cleanup]. by rewrite with_files_same.
  - revert Hn. unfold _normalize_audio.
    destruct (sf_read raw) as [[wav sr]|?]; [| intros [= _ <-]; by left].
    destruct (if sr =? TARGET_SR then _ else _) as [t|?]; [| intros [= _ <-]; by left].
    destruct (tmp_create (files w)) as [q|?] eqn:Hq; [| intros [= _ <-]; by left].
    destruct (sf_write q _) as [|e'] eqn:Hw; [discriminate |].
    intros [= <- <-]. right. destruct (Hfresh _ _ Hq). eauto.
Qed.

(** ** Status codes *)

Lemma plain_Exception {A} m : plain (@Raise A (Exception m)).
Proof. intros s d. discriminate. Qed.

Lemma plain_Return {A} (a : A) : plain (Return a).
Proof. intros s d. discriminate. Qed.

Lemma to_http_of_plain {A} (r : result A) :
  plain r ->
  (exists a, to_http r = Return a) \/ (exists d, to_http r = Raise (HTTPException 500 d)).
Proof.
  destruct r as [a|[s d|m]]; intros Hp; cbn; eauto. by destruct (Hp s d).
Qed.

Lemma round_plain x : plain (PyFloat.round x).
Proof. destruct x; intros code d; discriminate. Qed.

Lemma to_ms_plain t : plain (to_ms t).
Proof. apply round_plain. Qed.

Lemma loop_body_plain st tr : plain (loop_body st tr).
Proof.
  unfold loop_body. intros code d.
  destruct (speaker_map st !! turn_speaker tr) as [l|] eqn:Hsp;
    [rewrite Hsp | rewrite lookup_insert_eq];
    (destruct (to_ms (turn_start tr)) as [a|e] eqn:Hs;
       [rewrite bind_Return_l | cbn; intros [= ->]; by eapply to_ms_plain]);
    (destruct (to_ms (turn_end tr)) as [b|e] eqn:He;
       [rewrite bind_Return_l | cbn; intros [= ->]; by eapply to_ms_plain]);
    discriminate.
Qed.

Lemma loop_plain turns st : plain (loop st turns).
Proof.
  revert st. induction turns as [|tr turns IH]; intros st code d; cbn; [discriminate |].
  destruct (loop_body st tr) as [st1|e] eqn:Hb; cbn.
  - apply IH.
  - intros [= ->]. by apply loop_body_plain in Hb.
Qed.

Lemma shape_plain turns : plain (shape turns).
Proof.
  unfold shape. intros code d.
  destruct (loop loop_init turns) as [st|e] eqn:Hl; cbn.
  - unfold duration_of. destruct (last _) as [sg|]; cbn.
    + unfold of_int. destruct (binary_normalize _ _ _ _ _); cbn;
        try destruct (is_finite _); discriminate.
    + discriminate.
  - intros [= ->]. by apply loop_plain in Hl.
Qed.

Lemma _load_pipeline_plain w : pyannote_plain -> plain (_load_pipeline w).1.
Proof.
  intros (Hfp & Hcuda & _). unfold _load_pipeline.
  destruct (_pipeline w); [apply plain_Return |].
  destruct (String.eqb _ _); [apply plain_Exception |].
  destruct (from_pretrained _) as [o|e] eqn:Hl; [| cbn; rewrite <- Hl; apply Hfp].
  destruct cuda_is_available; [| apply plain_Return].
  destruct o as [pl|]; [| apply plain_Exception].
  destruct (to_cuda pl) as [|e] eqn:Hm; [apply plain_Return |].
  cbn. intros s d [= ->]. by eapply Hcuda.
Qed.

Lemma diarize_try_plain raw w x :
  libs_plain -> pyannote_plain ->
  sf_read raw = Return x ->
  plain (diarize_try raw w).1.1.
Proof.
  intros (Hres & Htmp & Hwr) Hpa Hread. unfold diarize_try, _normalize_audio.
  rewrite Hread. destruct x as [wav sr].
  destruct (if sr =? TARGET_SR then _ else _) as [t|e] eqn:Hrs.
  - destruct (tmp_create (files w)) as [p|e] eqn:Hp;
      [| cbn; intros s d [= ->]; by eapply Htmp].
    destruct (sf_write p _) as [|e] eqn:Hw;
      [| cbn; intros s d [= ->]; by eapply Hwr].
    pose proof (_load_pipeline_plain
                  (with_files w (files w ∪ {[ p ]})) Hpa) as Hlp.
    destruct (_load_pipeline _) as [[[pl|]|e] w2]; cbn in *.
    + destruct (run pl p) as [turns|e] eqn:Hr; cbn.
      * apply shape_plain.
      * intros s d [= ->]. destruct Hpa as (_ & _ & Hrun). by eapply Hrun.
    + apply plain_Exception.
    + intros s d [= ->]. by eapply Hlp.
  - cbn. intros s d [= ->]. destruct (sr =? TARGET_SR); [discriminate |].
    by eapply Hres.
Qed.

(** X16: with libraries that raise exceptions of their own only, /diarize
    answers 200, 400 or 500 and nothing else; it answers 400 exactly when
    the body has fewer than 1600 bytes or the codec cannot decode it, and
    then it has created no file and loaded no pipeline. *)
Theorem diarize_statuses raw w r w' :
  libs_plain -> pyannote_plain ->
  diarize raw w = (r, w') ->
  ((exists a, r = Return a) \/
   (exists d, r = Raise (HTTPException 400 d)) \/
   (exists d, r = Raise (HTTPException 500 d))) /\
  (http_status r = 400 <->
   (length raw < 1600)%nat \/ exists e, sf_read raw = Raise e) /\
  (http_status r = 400 -> w' = w).
Proof.
  intros Hlibs Hpa. unfold diarize.
  destruct (Nat.ltb_spec (length raw) 1600) as [Hshort | Hlong].
  { intros [= <- <-]. split_and!; [eauto | | done]. split; [eauto | done]. }
  destruct (sf_read raw) as [x|e0] eqn:Hread.
  - pose proof (diarize_try_plain raw w x Hlibs Hpa Hread) as Hplain.
    destruct (diarize_try raw w) as [[r0 p] w0]. cbn in Hplain.
    intros [= <- <-].
    assert (http_status (to_http r0) <> 400) as Hne.
    { destruct (to_http_of_plain r0 Hplain) as [[a ->] | [d ->]]; cbn; lia. }
    split_and!.
    + destruct (to_http_of_plain r0 Hplain) as [[a ->] | [d ->]]; eauto.
    + split; [done |]. intros [? | [e ?]]; [lia | done].
    + done.
  - unfold diarize_try, _normalize_audio. rewrite Hread. cbn [cleanup].
    rewrite with_files_same. intros [= <- <-].
    split_and!; [eauto | | done]. split; [eauto | done].
Qed.

(** ** The shape of the response *)

(** What a 200 is made of: the turns, the segments in raw order, the
    speaker order. *)
Lemma diarize_anatomy raw w r w' :
  diarize raw w = (Return r, w') ->
  exists pl wav_path turns emitted,
    run pl wav_path = Return turns /\
    segments r = sort emitted /\
    speaker_count r = length (first_seen (turn_speaker <$> turns)) /\
    duration_of (segments r) = Return (duration_sec r) /\
    PyFloat.is_finite (duration_sec r) = true /\
    Forall2 (emitted_for (first_seen (turn_speaker <$> turns))) turns emitted.
Proof.
  intros (pl & p & turns & Hrun & Hshape)%DiarizeHandler.diarize_Return.
  assert (is_finite (duration_sec r) = true) as Hfin.
  { revert Hshape. unfold shape. intros (st & _ & Hrest)%bind_Return.
    apply bind_Return in Hrest as (d & _ & Hrest).
    destruct (is_finite d) eqn:Hd; [| discriminate]. by injection Hrest as <-. }
  apply shape_spec in Hshape as (st & Hloop & Hsegs & Hcount & Hdur).
  apply loop_init_spec in Hloop as [(_ & _ & Hsize & _) Hall].
  exists pl, p, turns, (segs st). split_and!; try done. congruence.
Qed.

(** X17: a 200 from /diarize has one segment for each turn the pipeline
    yielded: none is dropped, merged or added. *)
Theorem one_segment_per_turn raw w r w' :
  diarize raw w = (Return r, w') ->
  exists pl wav_path turns,
    run pl wav_path = Return turns /\
    length (segments r) = length turns.
Proof.
  intros (pl & p & turns & emitted & Hrun & -> & _ & _ & _ & Hall)%diarize_anatomy.
  exists pl, p, turns. split; [done |].
  rewrite sort_perm. symmetry. by eapply Forall2_length.
Qed.

(** X18: the sort only reorders: the segments of the response are a
    permutation of those built in raw order, and segments with the same
    (start_ms, end_ms) keep the order in which their turns were yielded. *)
Theorem equal_keys_keep_raw_order raw w r w' :
  diarize raw w = (Return r, w') ->
  exists pl wav_path turns emitted,
    run pl wav_path = Return turns /\
    Forall2 (emitted_for (first_seen (turn_speaker <$> turns))) turns emitted /\
    segments r ≡ₚ emitted /\
    forall k : Z * Z,
      List.filter (fun sg => bool_decide (sort_key sg = k)) (segments r)
      = List.filter (fun sg => bool_decide (sort_key sg = k)) emitted.
Proof.
  intros (pl & p & turns & emitted & Hrun & -> & _ & _ & _ & Hall)%diarize_anatomy.
  exists pl, p, turns, emitted. split_and!; try done.
  - apply sort_perm.
  - intros k. apply sort_stable.
Qed.

(** X19: the segments of a 200 are, sorted, those emitted turn by turn
    (each with the rounded times and the label of its turn), and two
    turns get the same label exactly when they have the same raw speaker:
    distinct speakers never share a label. *)
Theorem same_label_iff_same_speaker raw w r w' :
  diarize raw w = (Return r, w') ->
  exists pl wav_path turns emitted,
    run pl wav_path = Return turns /\
    segments r = sort emitted /\
    Forall2 (emitted_for (first_seen (turn_speaker <$> turns))) turns emitted /\
    forall i j tr1 tr2 sg1 sg2,
      turns !! i = Some tr1 -> turns !! j = Some tr2 ->
      emitted !! i = Some sg1 -> emitted !! j = Some sg2 ->
      (speaker sg1 = speaker sg2 <-> turn_speaker tr1 = turn_speaker tr2).
Proof.
  intros (pl & p & turns & emitted & Hrun & Hsegs & _ & _ & _ & Hall)%diarize_anatomy.
  exists pl, p, turns, emitted. split_and!; try done.
  intros i j tr1 tr2 sg1 sg2 Ht1 Ht2 Hs1 Hs2.
  pose proof (first_seen_NoDup (turn_speaker <$> turns)) as Hnd.
  destruct (Forall2_lookup_lr _ _ _ _ _ _ Hall Ht1 Hs1) as (_ & _ & a & Ha & ->).
  destruct (Forall2_lookup_lr _ _ _ _ _ _ Hall Ht2 Hs2) as (_ & _ & b & Hb & ->).
  split.
  - intros Hl. apply (inj label) in Hl. subst b. congruence.
  - intros Hsp. rewrite Hsp in Ha. f_equal. by eapply NoDup_lookup.
Qed.

(** X20: [speaker_count] never exceeds the number of segments, and is 0
    exactly when there is no segment, in which case [duration_sec] is
    0.0. *)
Theorem speaker_count_bounds raw w r w' :
  diarize raw w = (Return r, w') ->
  (speaker_count r <= length (segments r))%nat /\
  (speaker_count r = 0%nat <-> segments r = []) /\
  (segments r = [] -> duration_sec r = PyFloat.zero).
Proof.
  intros (pl & p & turns & emitted & Hrun & Hsegs & Hcount & Hdur & _ & Hall)%diarize_anatomy.
  assert (length (segments r) = length turns) as Hlen.
  { rewrite Hsegs, sort_perm. symmetry. by eapply Forall2_length. }
  set (order := first_seen (turn_speaker <$> turns)) in *.
  assert (order ⊆+ turn_speaker <$> turns) as Hsub.
  { apply NoDup_submseteq; [apply first_seen_NoDup |].
    intros x. apply first_seen_elem. }
  split_and!.
  - rewrite Hcount, Hlen. apply submseteq_length in Hsub.
    by rewrite length_fmap in Hsub.
  - rewrite Hcount. split.
    + intros Hz. apply length_zero_iff_nil. rewrite Hlen.
      destruct turns as [|tr turns]; [done |]. exfalso.
      assert (turn_speaker tr ∈ order) as Hin
        by (apply first_seen_elem; cbn; left).
      apply length_zero_iff_nil in Hz. rewrite Hz in Hin. by apply elem_of_nil in Hin.
    + intros Hnil. rewrite Hnil in Hlen. cbn in Hlen.
      destruct turns; [done | discriminate].
  - intros Hnil. rewrite Hnil in Hdur. cbn in Hdur. by injection Hdur.
Qed.

(** ** Numbers *)

Lemma binary_round_aux_zero_sign p em sx mx ex lx s :
  binary_round_aux p em sx mx ex lx = S754_zero s -> s = sx.
Proof.
  unfold binary_round_aux.
  destruct (shr_fexp p em mx ex lx) as [mrs' e'].
  destruct (shr_fexp p em _ e' loc_Exact) as [mrs'' e''].
  destruct (shr_m mrs''); try discriminate.
  - by intros [= ->].
  - destruct (e'' <=? em - p); discriminate.
Qed.

Lemma of_int_nonneg n f :
  0 <= n -> of_int n = Return f ->
  nonneg_finite f \/ f = S754_nan.
Proof.
  intros Hn. unfold of_int, binary_normalize. destruct n as [|m|m]; [| | lia].
  - intros [= <-]. left. by left.
  - unfold binary_round. destruct (shl_align _ _ _) as [mz ez].
    destruct (binary_round_aux prec emax false (Z.pos mz) ez loc_Exact)
      as [s|s| |s m' e'] eqn:Hr; try discriminate; intros [= <-].
    + apply binary_round_aux_zero_sign in Hr as ->. left. by left.
    + by right.
    + apply binary_round_aux_sign in Hr as ->. left. right. eauto.
Qed.

Lemma div_thousand_nonneg f :
  nonneg_finite f \/ f = S754_nan ->
  is_finite (div f thousand) = true ->
  nonneg_finite (div f thousand).
Proof.
  intros [[-> | (m & e & ->)] | ->] Hfin.
  - by left.
  - revert Hfin. unfold div, SFdiv, thousand. cbn [xorb].
    destruct (SFdiv_core_binary _ _ _ _ _ _) as [[mz ez] lz].
    destruct (binary_round_aux prec emax false mz ez lz)
      as [s|s| |s m' e'] eqn:Hr; try discriminate; intros _.
    + apply binary_round_aux_zero_sign in Hr as ->. by left.
    + apply binary_round_aux_sign in Hr as ->. right. eauto.
  - discriminate.
Qed.

Lemma emitted_nonneg order turns emitted sg :
  Forall2 (emitted_for order) turns emitted ->
  sg ∈ emitted -> 0 <= start_ms sg /\ 0 <= end_ms sg.
Proof.
  intros Hall (k & Hk)%list_elem_of_lookup_1.
  destruct (Forall2_lookup_r _ _ _ _ _ Hall Hk) as (tr & _ & Hs & He & _).
  apply to_ms_spec in Hs as (_ & Hs & _). apply to_ms_spec in He as (_ & He & _).
  done.
Qed.

(** X21: in a 200 from /diarize no [start_ms] or [end_ms] is negative,
    and [duration_sec] is +0.0 or a positive finite float: never negative,
    infinite or NaN. *)
Theorem diarize_times_nonnegative raw w r w' :
  diarize raw w = (Return r, w') ->
  Forall (fun sg => 0 <= start_ms sg /\ 0 <= end_ms sg) (segments r) /\
  nonneg_finite (duration_sec r).
Proof.
  intros (pl & p & turns & emitted & Hrun & Hsegs & _ & Hdur & Hfin & Hall)%diarize_anatomy.
  assert (Forall (fun sg => 0 <= start_ms sg /\ 0 <= end_ms sg) (segments r)) as Hnn.
  { apply Forall_forall. intros sg Hsg. eapply emitted_nonneg; [exact Hall |].
    rewrite Hsegs, sort_perm in Hsg. done. }
  split; [done |].
  unfold duration_of in Hdur. destruct (last (segments r)) as [sg|] eqn:Hlast.
  - apply bind_Return in Hdur as (f & Hf & Hd). injection Hd as Hd.
    rewrite <- Hd in Hfin |- *. apply div_thousand_nonneg; [| done].
    apply (of_int_nonneg (end_ms sg)); [| done].
    apply last_Some in Hlast as (l' & Hl').
    rewrite Forall_forall in Hnn. apply (Hnn sg). rewrite Hl'.
    apply elem_of_app. right. by apply list_elem_of_singleton.
  - injection Hdur as <-. by left.
Qed.

End Handler.

(** A boundary that is not greater than zero is a negative number, minus
    infinity, either zero, or a NaN, and becomes 0 ms. *)
Lemma to_ms_clamps (t : spec_float) :
  SFltb PyFloat.zero t = false ->
  to_ms t = Return 0 /\
  (t = S754_nan \/ (exists s, t = S754_zero s) \/
   (exists m e, t = S754_finite true m e) \/ t = S754_infinity true).
Proof.
  intros Hlt. split.
  - unfold to_ms, PyFloat.max. rewrite Hlt. reflexivity.
  - destruct t as [s|[]| |[] m e]; try discriminate; eauto 6.
Qed.

Lemma to_ms_infinity : exists m, to_ms infinity = Raise (Exception m).
Proof. eexists. reflexivity. Qed.

Lemma loop_raises_at_infinity turns st tr :
  tr ∈ turns ->
  turn_start tr = infinity \/ turn_end tr = infinity ->
  exists m, loop st turns = Raise (Exception m).
Proof.
  intros Hin Hinf. revert st.
  induction turns as [|tr0 turns IH]; intros st; [by apply elem_of_nil in Hin |].
  cbn. destruct (loop_body st tr0) as [st1|e] eqn:Hb.
  - rewrite bind_Return_l. apply elem_of_cons in Hin as [-> | Hin]; [| by apply IH].
    exfalso. revert Hb. unfold loop_body.
    destruct (speaker_map st !! turn_speaker tr0) as [l|] eqn:Hsp;
      [rewrite Hsp | rewrite lookup_insert_eq];
      intros (a & Ha & Hb)%bind_Return; apply bind_Return in Hb as (b & Hb & _);
      destruct to_ms_infinity as (m & Hm);
      destruct Hinf as [Hi | Hi]; rewrite Hi in *; congruence.
  - destruct e as [code d|m]; [by destruct (loop_body_plain st tr0 code d) | eauto].
Qed.

Section Infinite.
Context `{L : AudioLibs} `{PA : PyannoteAudio}.

(** X22: the segments of a 200 from /diarize are, sorted, those emitted
    turn by turn (each with the rounded times and the label of its turn),
    and every boundary that the pipeline gave as something not greater
    than zero (a negative number, minus infinity, either zero, or a NaN)
    is emitted as 0 ms. *)
Theorem nonpositive_boundaries_become_zero raw w r w' :
  diarize raw w = (Return r, w') ->
  exists pl wav_path turns emitted,
    run pl wav_path = Return turns /\
    segments r = sort emitted /\
    Forall2 (emitted_for (first_seen (turn_speaker <$> turns))) turns emitted /\
    forall i tr sg,
      turns !! i = Some tr -> emitted !! i = Some sg ->
      (SFltb PyFloat.zero (turn_start tr) = false -> start_ms sg = 0) /\
      (SFltb PyFloat.zero (turn_end tr) = false -> end_ms sg = 0).
Proof.
  intros (pl & p & turns & emitted & Hrun & Hsegs & _ & _ & _ & Hall)%diarize_anatomy.
  exists pl, p, turns, emitted. split_and!; try done.
  intros i tr sg Ht Hs.
  destruct (Forall2_lookup_lr _ _ _ _ _ _ Hall Ht Hs) as (Hstart & Hend & _).
  split; intros Hlt; apply to_ms_clamps in Hlt as [Hz _]; congruence.
Qed.

(** X23: when the pipeline yields a turn whose start or end is infinite,
    the shaping loop raises and /diarize answers 500; the temporary file
    is deleted all the same when [os.unlink] works. *)
Theorem infinite_boundary_is_500 raw w wav_path w1 pl w2 turns tr :
  tmp_fresh -> (forall p, unlink_raises p = false) ->
  (1600 <= length raw)%nat ->
  _normalize_audio raw w = (Return wav_path, w1) ->
  _load_pipeline w1 = (Return (Some pl), w2) ->
  run pl wav_path = Return turns ->
  tr ∈ turns ->
  turn_start tr = infinity \/ turn_end tr = infinity ->
  (exists d, (diarize raw w).1 = Raise (HTTPException 500 d)) /\
  files (diarize raw w).2 = files w.
Proof.
  intros Hfresh Hunlink Hlen Hn Hl Hrun Hin Hinf.
  destruct (loop_raises_at_infinity turns loop_init tr Hin Hinf) as (m & Hloop).
  assert (shape turns = Raise (Exception m)) as Hshape
    by (unfold shape; by rewrite Hloop).
  split.
  - unfold diarize, diarize_try.
    destruct (Nat.ltb_spec (length raw) 1600); [lia |].
    rewrite Hn, Hl, Hrun, Hshape. cbn. eauto.
  - apply TempFiles.diarize_files_restored; try done.
    intros e w1' Hn'. congruence.
Qed.

End Infinite.
End DiarizeMore.

(** * The further properties on concrete inputs *)

Module MoreRuns.
Import Doubles MoreDoubles.

(** ** The embedder *)

(** 1601 zero bytes. *)
Lemma odd_length_pcm_rejected_witness :
  @Embedder._audio_to_tensor (libs false false) (repeat x00 1601) 16000
  = Raise (HTTPException 400
             "Could not parse audio: buffer size must be a multiple of element size").
Proof.
  apply (EmbedderMore.odd_length_pcm_rejected (L := (libs false false)) (repeat x00 1601) 16000
           (Exception "Error opening file: Format not recognised.")).
  - vm_compute. reflexivity.
  - vm_compute. reflexivity.
Defined.

(** Three stereo frames. *)
Lemma multichannel_is_averaged_witness :
  @Embedder._audio_to_tensor stereo_libs [] 16000
    = Return (unsqueeze0 (vec (map (@frame_mean stereo_libs) stereo_frames)),
              Embedder.TARGET_SR) /\
  len (vec (map (@frame_mean stereo_libs) stereo_frames)) = length stereo_frames.
Proof.
  apply (EmbedderMore.multichannel_is_averaged (L := stereo_libs) [] 16000 stereo_frames).
  - reflexivity.
  - reflexivity.
Defined.

(** The same 0.2 s of silence as an upload in [file] and as a body. *)
Lemma embed_upload_like_body_witness :
  @Embedder.embed (libs false false) speechbrain (multipart_upload "file" wav_3200) embedder_world0
  = @Embedder.embed (libs false false) speechbrain (octet_stream wav_3200) embedder_world0.
Proof.
  apply (EmbedderMore.embed_upload_like_body (L := (libs false false)) (SB := speechbrain)
           (multipart_upload "file" wav_3200) (octet_stream wav_3200)
           {[ "file"%string := Embedder.UploadFile wav_3200 ]} wav_3200).
  - vm_compute. reflexivity.
  - reflexivity.
  - right. split; vm_compute; reflexivity.
  - vm_compute. reflexivity.
  - reflexivity.
Defined.

(** A text field [audio] beside an upload [file]. *)
Lemma embed_multipart_without_upload_witness :
  @Embedder.embed (libs false false) speechbrain (multipart_text_audio wav_3200) embedder_world0
  = (Raise (HTTPException 400 "Multipart form must include 'audio' file"),
     embedder_world0).
Proof.
  apply (EmbedderMore.embed_multipart_without_upload (L := (libs false false)) (SB := speechbrain)
           (multipart_text_audio wav_3200)
           {[ "audio"%string := Embedder.FormText "clip.wav";
              "file"%string := Embedder.UploadFile wav_3200 ]}).
  - vm_compute. reflexivity.
  - reflexivity.
  - left. exists "clip.wav"%string. split; [discriminate | vm_compute; reflexivity].
Defined.

Lemma embed_frame_witness :
  let out := @Embedder.embed (libs false false) speechbrain (octet_stream wav_3200) embedder_world0 in
  Embedder.files out.2 = Embedder.files (embedder_world0 (SB := speechbrain)) /\
  Embedder._verification out.2 = Embedder._verification (embedder_world0 (SB := speechbrain)) /\
  (is_Some (Embedder._classifier (embedder_world0 (SB := speechbrain))) ->
   Embedder._classifier out.2 = Embedder._classifier (embedder_world0 (SB := speechbrain))) /\
  (forall a, out.1 = Return a -> is_Some (Embedder._classifier out.2)).
Proof.
  cbv zeta.
  apply (EmbedderMore.embed_frame (L := (libs false false)) (SB := speechbrain)
           (octet_stream wav_3200) embedder_world0).
  by destruct (Embedder.embed _ _).
Defined.

Lemma _load_classifier_once_witness :
  let w1 := (@Embedder._load_classifier speechbrain embedder_world0).2 in
  Embedder.files w1 = ∅ /\ Embedder._verification w1 = None /\
  Embedder._classifier w1 = Some tt /\
  @Embedder._load_classifier speechbrain w1 = (Return tt, w1).
Proof.
  cbv zeta.
  apply (EmbedderMore._load_classifier_once (SB := speechbrain)
           embedder_world0 (Return tt)). reflexivity.
Defined.

Lemma _load_verification_once_witness :
  let w1 := (@Embedder._load_verification speechbrain embedder_world0).2 in
  Embedder.files w1 = ∅ /\ Embedder._classifier w1 = None /\
  Embedder._verification w1 = Some tt /\
  @Embedder._load_verification speechbrain w1 = (Return tt, w1).
Proof.
  cbv zeta.
  apply (EmbedderMore._load_verification_once (SB := speechbrain)
           embedder_world0 (Return tt)). reflexivity.
Defined.

(** Ten samples of bare PCM as the second upload. *)
Lemma verify_rejects_bad_upload_witness :
  exists d,
    @Embedder.verify (libs false false) speechbrain short_wav (pcm_zeros 10) embedder_world0
      = (Raise (HTTPException 400 d), embedder_world0) /\
    forall e1, @Embedder._audio_to_tensor (libs false false) short_wav 16000 = Raise e1 ->
               e1 = HTTPException 400 d.
Proof.
  apply (EmbedderMore.verify_rejects_bad_upload (L := (libs false false)) (SB := speechbrain)).
  right. eexists. vm_compute. reflexivity.
Defined.

Lemma verify_answers_from_fresh_files_witness :
  exists v p1 p2,
    p1 <> p2 /\ (p1 ∉ (∅ : gset string)) /\ (p2 ∉ (∅ : gset string)) /\
    @Embedder.verify_files speechbrain v p1 p2
      = Return (S754_finite false 4503599627370496 (-53), true) /\
    PyFloat.is_finite (S754_finite false 4503599627370496 (-53)) = true.
Proof.
  apply (EmbedderMore.verify_answers_from_fresh_files (L := (libs false false)) (SB := speechbrain)
           short_wav short_wav embedder_world0
           {| Embedder.same_speaker := true;
              Embedder.score := S754_finite false 4503599627370496 (-53) |}
           (@Embedder.verify (libs false false) speechbrain short_wav short_wav embedder_world0).2).
  - apply Runs.libs_tmp_fresh.
  - vm_compute. reflexivity.
Defined.

(** ** The diarizer *)

Lemma _load_pipeline_once_witness :
  let w := @pyannote_world0 (pyannote late_first) token_env in
  let w1 := (@Pyannote._load_pipeline (pyannote late_first) w).2 in
  Pyannote._pipeline w1 = Some tt /\ Pyannote.files w1 = Pyannote.files w /\
  Pyannote.environ w1 = Pyannote.environ w /\
  (is_Some (Some tt) ->
   @Pyannote._load_pipeline (pyannote late_first) w1 = (Return (Some tt), w1)).
Proof.
  cbv zeta.
  apply (DiarizeMore._load_pipeline_once (PA := pyannote late_first)
           (pyannote_world0 token_env) (Some tt)).
  vm_compute. reflexivity.
Defined.

Lemma pipeline_cached_when_cuda_fails_witness :
  exists w1,
    @Pyannote._load_pipeline pyannote_cuda_fails (pyannote_world0 token_env)
      = (Raise (Exception "CUDA error: out of memory"), w1) /\
    @Pyannote._load_pipeline pyannote_cuda_fails w1 = (Return (Some tt), w1).
Proof.
  apply (DiarizeMore.pipeline_cached_when_cuda_fails (PA := pyannote_cuda_fails)
           (pyannote_world0 token_env) tt).
  - reflexivity.
  - vm_compute. discriminate.
  - reflexivity.
  - reflexivity.
  - reflexivity.
Defined.

Lemma _normalize_audio_creates_one_file_witness :
  let w := @pyannote_world0 (pyannote late_first) token_env in
  let w1 := (@Pyannote._normalize_audio (libs false false) (pyannote late_first)
               wav_3200 w).2 in
  ("0"%string ∉ Pyannote.files w) /\ "0"%string <> EmptyString /\
  Pyannote.files w1 = Pyannote.files w ∪ {[ "0"%string ]} /\
  Pyannote.environ w1 = Pyannote.environ w /\
  Pyannote._pipeline w1 = Pyannote._pipeline w /\
  exists wav sr, @sf_read (libs false false) wav_3200 = Return (wav, sr).
Proof.
  cbv zeta.
  apply (DiarizeMore._normalize_audio_creates_one_file
           (L := libs false false) (PA := pyannote late_first)).
  - apply Runs.libs_tmp_fresh.
  - vm_compute. reflexivity.
Defined.

(** [sf.write] fails: the answer is 500 and the new file stays. *)
Lemma diarize_after_failed_normalisation_witness :
  let w := @pyannote_world0 (pyannote late_first) token_env in
  let e := Exception "Error opening file: System error." in
  let w1 := (@Pyannote._normalize_audio (libs true false) (pyannote late_first)
               wav_3200 w).2 in
  @Pyannote.diarize (libs true false) (pyannote late_first) wav_3200 w
    = (Pyannote.to_http (Raise e), w1) /\
  (Pyannote.files w1 = Pyannote.files w \/
   exists p t, (p ∉ Pyannote.files w) /\ @sf_write (libs true false) p t = Raise e /\
               Pyannote.files w1 = Pyannote.files w ∪ {[ p ]}).
Proof.
  cbv zeta.
  apply (DiarizeMore.diarize_after_failed_normalisation
           (L := libs true false) (PA := pyannote late_first)).
  - apply Runs.libs_tmp_fresh.
  - apply Nat.leb_le. vm_compute. reflexivity.
  - vm_compute. reflexivity.
Defined.

Lemma libs_are_plain wf uf : @libs_plain (libs wf uf).
Proof.
  split_and!.
  - intros t a b s d. cbn. unfold hold_resample.
    destruct (_ || _); [discriminate |].
    destruct t as [|[|[|xs] [|]]]; discriminate.
  - intros fs s d. discriminate.
  - intros p t s d. cbn. destruct wf; discriminate.
Qed.

Lemma pyannote_is_plain turns : @pyannote_plain (pyannote turns).
Proof. split_and!; intros; intros s d; discriminate. Qed.

(** A 500-byte body. *)
Lemma diarize_statuses_witness :
  let out := @Pyannote.diarize (libs false false) (pyannote late_first)
               (repeat x00 500) (pyannote_world0 token_env) in
  ((exists a, out.1 = Return a) \/
   (exists d, out.1 = Raise (HTTPException 400 d)) \/
   (exists d, out.1 = Raise (HTTPException 500 d))) /\
  (http_status out.1 = 400 <->
   (length (repeat x00 500) < 1600)%nat \/
   exists e, @sf_read (libs false false) (repeat x00 500) = Raise e) /\
  (http_status out.1 = 400 -> out.2 = pyannote_world0 token_env).
Proof.
  cbv zeta.
  apply (DiarizeMore.diarize_statuses (L := libs false false) (PA := pyannote late_first)).
  - apply libs_are_plain.
  - apply pyannote_is_plain.
  - by destruct (Pyannote.diarize _ _).
Defined.

Lemma diarize_three_turns :
  @Pyannote.diarize (libs false false) (pyannote three_turns) wav_3200
    (pyannote_world0 token_env)
  = (Return three_turns_response,
     (@Pyannote.diarize (libs false false) (pyannote three_turns) wav_3200
        (pyannote_world0 token_env)).2).
Proof. vm_compute. reflexivity. Qed.

Lemma one_segment_per_turn_witness :
  exists pl wav_path turns,
    @Pyannote.run (pyannote three_turns) pl wav_path = Return turns /\
    length (Pyannote.segments three_turns_response) = length turns.
Proof.
  apply (DiarizeMore.one_segment_per_turn
           (L := libs false false) (PA := pyannote three_turns) _ _ _ _
           diarize_three_turns).
Defined.

Lemma equal_keys_keep_raw_order_witness :
  exists pl wav_path turns emitted,
    @Pyannote.run (pyannote three_turns) pl wav_path = Return turns /\
    Forall2 (Pyannote.emitted_for
               (Pyannote.first_seen (Pyannote.turn_speaker <$> turns))) turns emitted /\
    Pyannote.segments three_turns_response ≡ₚ emitted /\
    forall k : Z * Z,
      List.filter (fun sg => bool_decide (Pyannote.sort_key sg = k))
        (Pyannote.segments three_turns_response)
      = List.filter (fun sg => bool_decide (Pyannote.sort_key sg = k)) emitted.
Proof.
  apply (DiarizeMore.equal_keys_keep_raw_order
           (L := libs false false) (PA := pyannote three_turns) _ _ _ _
           diarize_three_turns).
Defined.

Lemma same_label_iff_same_speaker_witness :
  exists pl wav_path turns emitted,
    @Pyannote.run (pyannote three_turns) pl wav_path = Return turns /\
    Pyannote.segments three_turns_response = Pyannote.sort emitted /\
    Forall2 (Pyannote.emitted_for
               (Pyannote.first_seen (Pyannote.turn_speaker <$> turns))) turns emitted /\
    forall i j tr1 tr2 sg1 sg2,
      turns !! i = Some tr1 -> turns !! j = Some tr2 ->
      emitted !! i = Some sg1 -> emitted !! j = Some sg2 ->
      (Pyannote.speaker sg1 = Pyannote.speaker sg2
       <-> Pyannote.turn_speaker tr1 = Pyannote.turn_speaker tr2).
Proof.
  apply (DiarizeMore.same_label_iff_same_speaker
           (L := libs false false) (PA := pyannote three_turns) _ _ _ _
           diarize_three_turns).
Defined.

Lemma speaker_count_bounds_witness :
  (Pyannote.speaker_count three_turns_response
   <= length (Pyannote.segments three_turns_response))%nat /\
  (Pyannote.speaker_count three_turns_response = 0%nat
   <-> Pyannote.segments three_turns_response = []) /\
  (Pyannote.segments three_turns_response = [] ->
   Pyannote.duration_sec three_turns_response = PyFloat.zero).
Proof.
  apply (DiarizeMore.speaker_count_bounds
           (L := libs false false) (PA := pyannote three_turns) _ _ _ _
           diarize_three_turns).
Defined.

Lemma diarize_times_nonnegative_witness :
  Forall (fun sg => 0 <= Pyannote.start_ms sg /\ 0 <= Pyannote.end_ms sg)
    (Pyannote.segments three_turns_response) /\
  nonneg_finite (Pyannote.duration_sec three_turns_response).
Proof.
  apply (DiarizeMore.diarize_times_nonnegative
           (L := libs false false) (PA := pyannote three_turns) _ _ _ _
           diarize_three_turns).
Defined.

Lemma diarize_strange :
  @Pyannote.diarize (libs false false) (pyannote strange) wav_3200
    (pyannote_world0 token_env)
  = (Return strange_response,
     (@Pyannote.diarize (libs false false) (pyannote strange) wav_3200
        (pyannote_world0 token_env)).2).
Proof. vm_compute. reflexivity. Qed.

Lemma nonpositive_boundaries_become_zero_witness :
  exists pl wav_path turns emitted,
    @Pyannote.run (pyannote strange) pl wav_path = Return turns /\
    Pyannote.segments strange_response = Pyannote.sort emitted /\
    Forall2 (Pyannote.emitted_for
               (Pyannote.first_seen (Pyannote.turn_speaker <$> turns))) turns emitted /\
    forall i tr sg,
      turns !! i = Some tr -> emitted !! i = Some sg ->
      (SFltb PyFloat.zero (Pyannote.turn_start tr) = false -> Pyannote.start_ms sg = 0) /\
      (SFltb PyFloat.zero (Pyannote.turn_end tr) = false -> Pyannote.end_ms sg = 0).
Proof.
  apply (DiarizeMore.nonpositive_boundaries_become_zero
           (L := libs false false) (PA := pyannote strange) _ _ _ _
           diarize_strange).
Defined.

Lemma infinite_boundary_is_500_witness :
  let out := @Pyannote.diarize (libs false false) (pyannote endless) wav_3200
               (pyannote_world0 token_env) in
  (exists d, out.1 = Raise (HTTPException 500 d)) /\
  Pyannote.files out.2 = Pyannote.files (@pyannote_world0 (pyannote endless) token_env).
Proof.
  cbv zeta.
  apply (DiarizeMore.infinite_boundary_is_500
           (L := libs false false) (PA := pyannote endless)
           wav_3200 (pyannote_world0 token_env) "0"%string
           (@Pyannote._normalize_audio (libs false false) (pyannote endless)
              wav_3200 (pyannote_world0 token_env)).2
           tt
           (@Pyannote._load_pipeline (pyannote endless)
              (@Pyannote._normalize_audio (libs false false) (pyannote endless)
                 wav_3200 (pyannote_world0 token_env)).2).2
           endless
           {| Pyannote.turn_start := seconds 1; Pyannote.turn_end := infinity;
              Pyannote.turn_speaker := "SPEAKER_00" |}).
  - apply Runs.libs_tmp_fresh.
  - reflexivity.
  - apply Nat.leb_le. vm_compute. reflexivity.
  - vm_compute. reflexivity.
  - vm_compute. reflexivity.
  - reflexivity.
  - apply list_elem_of_singleton. reflexivity.
  - right. reflexivity.
Defined.

End MoreRuns.
